(** * Ironman: template lifecycle orchestrator and base manager

    A shallow embedding of the Go sources

    - [src/template/repository/git/git.go], package [ironman]
      (the [Ironman] facade: Install, Link, List, Uninstall, Unlink,
      Update, Generate, isDirEmpty), and
    - [src/unnamed/part_000], package [manager] (the [BaseManager]).

    The collaborators the facade talks to through Go interfaces
    (manager.Manager, model.Reader, index.Index, validator.Validator)
    and the packages it calls ([os], [path/filepath], the generation
    engine [template.Generator]) are not part of the embedded sources:
    they are type classes here, so that every theorem holds for every
    implementation.  Each call made through one of them is recorded in a
    log, which is what the ordering statements are about. *)

From Stdlib Require Import String Ascii List Bool.
From stdpp Require Import base option strings gmap.

Import ListNotations.
Local Open Scope string_scope.
Local Open Scope list_scope.

(** ** Errors *)

(** The [syscall.Errno] values the sources distinguish through
    [os.IsNotExist], [os.IsPermission] and [os.IsExist]. *)
Inductive Errno : Type :=
| ENOENT | EEXIST | ENOTEMPTY | EACCES | EPERM | ENOTDIR | EIO.

(** Go [error] values.  [New] is what [errors.New] and [errors.Errorf]
    build (the message already formatted), [Wrap] what [errors.Wrap] and
    [errors.Wrapf] build around a cause, [PathError] is [*os.PathError]
    and [EOF] the sentinel [io.EOF]. *)
Inductive error : Type :=
| New (msg : string)
| Wrap (cause : error) (msg : string)
| PathError (op path : string) (errno : Errno)
| EOF.

#[global] Instance Errno_eq_dec : EqDecision Errno.
Proof. solve_decision. Defined.

#[global] Instance error_eq_dec : EqDecision error.
Proof. solve_decision. Defined.

Definition errors_New (msg : string) : error := New msg.
Definition errors_Errorf (msg : string) : error := New msg.
Definition errors_Wrap (err : error) (msg : string) : error := Wrap err msg.
Definition errors_Wrapf (err : error) (msg : string) : error := Wrap err msg.

Definition Errno_Error (e : Errno) : string :=
  match e with
  | ENOENT => "no such file or directory"
  | EEXIST => "file exists"
  | ENOTEMPTY => "directory not empty"
  | EACCES => "permission denied"
  | EPERM => "operation not permitted"
  | ENOTDIR => "not a directory"
  | EIO => "input/output error"
  end.

(** The [Error()] method: the text a [%s] verb prints for an error. *)
Fixpoint error_Error (e : error) : string :=
  match e with
  | New msg => msg
  | Wrap cause msg => msg +:+ ": " +:+ error_Error cause
  | PathError op path errno => op +:+ " " +:+ path +:+ ": " +:+ Errno_Error errno
  | EOF => "EOF"
  end.

(** [os.IsNotExist], [os.IsPermission], [os.IsExist]: they look at the
    errno of a [*PathError] and are false for [nil] and for anything
    else, an error wrapped by [errors.Wrap] included. *)
Definition os_IsNotExist (err : option error) : bool :=
  match err with
  | Some (PathError _ _ ENOENT) => true
  | _ => false
  end.

Definition os_IsPermission (err : option error) : bool :=
  match err with
  | Some (PathError _ _ EACCES) | Some (PathError _ _ EPERM) => true
  | _ => false
  end.

Definition os_IsExist (err : option error) : bool :=
  match err with
  | Some (PathError _ _ EEXIST) | Some (PathError _ _ ENOTEMPTY) => true
  | _ => false
  end.

(** [mentions e sub]: [sub] is [e] itself or one of the causes [e] wraps,
    that is, [sub] can be recovered from [e]. *)
Fixpoint mentions (e sub : error) : bool :=
  if decide (e = sub) then true
  else match e with
       | Wrap cause _ => mentions cause sub
       | _ => false
       end.

(** A Go result pair [(A, error)]: the value when the error is [nil],
    the error otherwise (every caller below tests the error first). *)
Inductive result (A : Type) : Type :=
| Ok (a : A)
| Err (e : error).
Arguments Ok {A} a.
Arguments Err {A} e.

(** What a call does: it returns, or it panics. *)
Inductive outcome (A : Type) : Type :=
| Return (a : A)
| Panic (msg : string).
Arguments Return {A} a.
Arguments Panic {A} msg.

(** ** Metadata model *)

Inductive SourceType : Type := SourceTypeURL | SourceTypeLink.
Inductive GeneratorType : Type := GeneratorTypeFile | GeneratorTypeDirectory.

#[global] Instance SourceType_eq_dec : EqDecision SourceType.
Proof. solve_decision. Defined.

#[global] Instance GeneratorType_eq_dec : EqDecision GeneratorType.
Proof. solve_decision. Defined.

Record FileTypeOptions : Type := mkFileTypeOptions {
  FileGenerationRelativePath : string
}.

Record Generator : Type := mkGenerator {
  gID : string;
  TType : GeneratorType;
  gDirectoryName : string;
  gFileTypeOptions : FileTypeOptions
}.

Record Template : Type := mkTemplate {
  ID : string;
  DirectoryName : string;
  tSourceType : SourceType;
  Generators : list Generator
}.

Definition set_ID (t : Template) (id : string) : Template :=
  {| ID := id; DirectoryName := DirectoryName t;
     tSourceType := tSourceType t; Generators := Generators t |}.

Definition set_SourceType (t : Template) (s : SourceType) : Template :=
  {| ID := ID t; DirectoryName := DirectoryName t;
     tSourceType := s; Generators := Generators t |}.

(** Modelled from the spec: the method [Template.Generator(id)] of the
    model package is not among the sources.  The spec has the generators
    keyed by ID with a deterministic lookup; the caller tests the
    result against [nil]. *)
Definition Template_Generator (t : Template) (generatorID : string) : option Generator :=
  List.find (fun g => String.eqb (gID g) generatorID) (Generators t).

(** ** The log of calls *)

Inductive Event : Type :=
| EManagerInstall (templateLocator : string)
| EManagerUpdate (directoryName : string)
| EManagerUninstall (directoryName : string)
| EManagerLink (templatePath templateID : string)
| EManagerUnlink (templateID : string)
| EReaderRead (path : string)
| EIndexExists (id : string)
| EIndexFind (id : string)
| EIndexIndex (t : Template)
| EIndexUpdate (t : Template)
| EIndexDelete (id : string)
| EIndexList
| EOsStat (path : string)
| EOsMkdir (path : string)
| EIsDirEmpty (name : string)
| EOsRemoveAll (path : string)
| EOsRemove (path : string)
| EOsSymlink (oldname newname : string)
| EOsReadDir (path : string)
| EGenerate (generatorPath targetPath : string).

(** The calls that may change the Index. *)
Definition index_write (e : Event) : bool :=
  match e with
  | EIndexIndex _ | EIndexUpdate _ | EIndexDelete _ => true
  | _ => false
  end.

(** The calls that may change the filesystem. *)
Definition fs_write (e : Event) : bool :=
  match e with
  | EManagerInstall _ | EManagerUpdate _ | EManagerUninstall _
  | EManagerLink _ _ | EManagerUnlink _
  | EOsMkdir _ | EOsRemoveAll _ | EOsRemove _ | EOsSymlink _ _
  | EGenerate _ _ => true
  | _ => false
  end.

(** The calls that read a template's declaration, and the one that
    replaces a model in the Index. *)
Definition is_reader_read (e : Event) : bool :=
  match e with
  | EReaderRead _ => true
  | _ => false
  end.

Definition is_index_update (e : Event) : bool :=
  match e with
  | EIndexUpdate _ => true
  | _ => false
  end.

(** ** Collaborators *)

(** [manager.Manager] as the facade uses it: the backend that
    materializes templates under the templates root. *)
Class Manager (FS : Type) : Type := {
  manager_Install : string -> FS -> result string * FS;
  manager_Update : string -> FS -> option error * FS;
  manager_Uninstall : string -> FS -> option error * FS;
  manager_Link : string -> string -> FS -> result string * FS;
  manager_Unlink : string -> FS -> option error * FS;
  manager_TemplateLocation : string -> string
}.

(** [model.Reader]: reads a template's declaration from a root path. *)
Class Reader (FS : Type) : Type := {
  reader_Read : string -> FS -> result Template
}.

(** [index.Index]: the persistent map from template ID to model.  The
    three queries leave the store as it is. *)
Class Index (DB : Type) : Type := {
  index_Exists : string -> DB -> result bool;
  index_FindTemplateByID : string -> DB -> result Template;
  index_Index : Template -> DB -> result string * DB;
  index_Update : Template -> DB -> option error * DB;
  index_Delete : string -> DB -> result string * DB;
  index_List : DB -> result (list Template)
}.

(** Package [os] (and [ioutil.ReadDir]).  [os.Stat] and [os.Open] are
    kept by their error only, which is all the sources look at.  A
    single failing system call ([Mkdir], [Remove], [Symlink]) leaves the
    filesystem as it was; [RemoveAll] may fail half way. *)
Class OS (FS : Type) : Type := {
  os_Stat : string -> FS -> option error;
  os_Mkdir : string -> FS -> error + FS;
  os_Open : string -> FS -> option error;
  file_Readdirnames : string -> nat -> FS -> list string * option error;
  os_RemoveAll : string -> FS -> option error * FS;
  os_Remove : string -> FS -> error + FS;
  os_Symlink : string -> string -> FS -> error + FS;
  ioutil_ReadDir : string -> FS -> result (list string)
}.

(** Package [path/filepath]. *)
Class FilePath : Type := {
  filepath_Abs : string -> result string;
  filepath_Dir : string -> string;
  filepath_Base : string -> string;
  filepath_Join : list string -> string
}.

(** ** State *)

Record World (FS DB : Type) : Type := mkWorld {
  fs : FS;
  db : DB;
  log : list Event
}.
Arguments mkWorld {FS DB} fs db log.
Arguments fs {FS DB} w.
Arguments db {FS DB} w.
Arguments log {FS DB} w.

(** The state monad the embedded functions live in. *)
Definition M (S A : Type) : Type := S -> A * S.

Definition ret {S A : Type} (a : A) : M S A := fun s => (a, s).

Definition bind {S A B : Type} (m : M S A) (k : A -> M S B) : M S B :=
  fun s => let (a, s') := m s in k a s'.

(** [emits P m]: whatever the state, running [m] appends to the log
    only calls that satisfy [P]. *)
Definition emits {FS DB A : Type} (P : Event -> bool) (m : M (World FS DB) A) : Prop :=
  forall w : World FS DB,
    exists events : list Event,
      log (snd (m w)) = log w ++ events /\ forallb P events = true.

Declare Scope go_scope.
Delimit Scope go_scope with go.
Notation "x <~ m ;; k" := (bind m (fun x => k))
  (at level 100, m at next level, right associativity) : go_scope.
Notation "m ;;; k" := (bind m (fun _ => k))
  (at level 100, right associativity) : go_scope.
Local Open Scope go_scope.

(** ** Calls through the collaborators

    Each one runs the collaborator on its part of the world and appends
    the call to the log. *)
Section Calls.
Context {FS DB : Type}.
Context `{!Manager FS, !Reader FS, !Index DB, !OS FS}.

Definition logged (e : Event) (w : World FS DB) : list Event := log w ++ [e].

Definition on_fs {A : Type} (e : Event) (f : FS -> A * FS) : M (World FS DB) A :=
  fun w => let (a, fs') := f (fs w) in (a, mkWorld fs' (db w) (logged e w)).

Definition on_db {A : Type} (e : Event) (f : DB -> A * DB) : M (World FS DB) A :=
  fun w => let (a, db') := f (db w) in (a, mkWorld (fs w) db' (logged e w)).

Definition read_fs {A : Type} (e : Event) (f : FS -> A) : M (World FS DB) A :=
  fun w => (f (fs w), mkWorld (fs w) (db w) (logged e w)).

Definition read_db {A : Type} (e : Event) (f : DB -> A) : M (World FS DB) A :=
  fun w => (f (db w), mkWorld (fs w) (db w) (logged e w)).

(** A single system call: an error and the filesystem untouched, or
    [nil] and the new filesystem. *)
Definition syscall (e : Event) (f : FS -> error + FS) : M (World FS DB) (option error) :=
  fun w => match f (fs w) with
           | inl err => (Some err, mkWorld (fs w) (db w) (logged e w))
           | inr fs' => (None, mkWorld fs' (db w) (logged e w))
           end.

Definition call_manager_Install (templateLocator : string) : M (World FS DB) (result string) :=
  on_fs (EManagerInstall templateLocator) (manager_Install templateLocator).
Definition call_manager_Update (directoryName : string) : M (World FS DB) (option error) :=
  on_fs (EManagerUpdate directoryName) (manager_Update directoryName).
Definition call_manager_Uninstall (directoryName : string) : M (World FS DB) (option error) :=
  on_fs (EManagerUninstall directoryName) (manager_Uninstall directoryName).
Definition call_manager_Link (templatePath templateID : string) : M (World FS DB) (result string) :=
  on_fs (EManagerLink templatePath templateID) (manager_Link templatePath templateID).
Definition call_manager_Unlink (templateID : string) : M (World FS DB) (option error) :=
  on_fs (EManagerUnlink templateID) (manager_Unlink templateID).

Definition call_reader_Read (path : string) : M (World FS DB) (result Template) :=
  read_fs (EReaderRead path) (reader_Read path).

Definition call_index_Exists (id : string) : M (World FS DB) (result bool) :=
  read_db (EIndexExists id) (index_Exists id).
Definition call_index_FindTemplateByID (id : string) : M (World FS DB) (result Template) :=
  read_db (EIndexFind id) (index_FindTemplateByID id).
Definition call_index_Index (t : Template) : M (World FS DB) (result string) :=
  on_db (EIndexIndex t) (index_Index t).
Definition call_index_Update (t : Template) : M (World FS DB) (option error) :=
  on_db (EIndexUpdate t) (index_Update t).
Definition call_index_Delete (id : string) : M (World FS DB) (result string) :=
  on_db (EIndexDelete id) (index_Delete id).
Definition call_index_List : M (World FS DB) (result (list Template)) :=
  read_db EIndexList index_List.

Definition call_os_Stat (path : string) : M (World FS DB) (option error) :=
  read_fs (EOsStat path) (os_Stat path).
Definition call_os_Mkdir (path : string) : M (World FS DB) (option error) :=
  syscall (EOsMkdir path) (os_Mkdir path).
Definition call_os_RemoveAll (path : string) : M (World FS DB) (option error) :=
  on_fs (EOsRemoveAll path) (os_RemoveAll path).
Definition call_os_Remove (path : string) : M (World FS DB) (option error) :=
  syscall (EOsRemove path) (os_Remove path).
Definition call_os_Symlink (oldname newname : string) : M (World FS DB) (option error) :=
  syscall (EOsSymlink oldname newname) (os_Symlink oldname newname).
Definition call_ioutil_ReadDir (path : string) : M (World FS DB) (result (list string)) :=
  read_fs (EOsReadDir path) (ioutil_ReadDir path).
End Calls.

(** ** Package ironman: the facade *)
Module Ironman.
Section Facade.
Context {FS DB : Type}.
(** [Payload] is the validators' error payload, [Values] the values
    handed to the rendering, [Ctx] is [context.Context]. *)
Context {Payload Values Ctx : Type}.
Context `{!Manager FS, !Reader FS, !Index DB, !OS FS, !FilePath}.

(** [validator.Validator]: [Validate(model)] gives
    [(valid, validationErr, err)]. *)
Definition Validator : Type := Template -> bool * Payload * option error.

(** [template.GeneratorData]. *)
Record GeneratorData : Type := mkGeneratorData {
  gdTemplate : Template;
  gdGenerator : Generator;
  gdValues : Values
}.

(** The generation engine: [template.NewGenerator(generatorPath,
    targetPath, data, ...).Generate(ctx)], the walk that renders and
    writes every file of the generator. *)
Definition Engine : Type := Ctx -> string -> string -> GeneratorData -> FS -> option error * FS.

Definition templatesDirectory : string := "templates".
Definition generatorsPath : string := "generators".

(** The fields of [Ironman] that are not one of the interfaces above.
    [validationTempl] stands for [validationTempl.Execute] into a
    fresh buffer: the text written, or the error. *)
Record Ironman : Type := mkIronman {
  home : string;
  validators : list Validator;
  validationTempl : Payload -> result string;
  engine : Engine
}.

(** The loop over the validators (lines 218-235): [None] when every
    validator accepts the model, the error to return otherwise. *)
Fixpoint runValidators (i : Ironman) (vs : list Validator) (templateModel : Template)
  : option error :=
  match vs with
  | [] => None
  | validator :: rest =>
    match validator templateModel with
    | (_, _, Some err) => Some (errors_Wrap err "failed to validate model")
    | (false, validationErr, None) =>
      match validationTempl i validationErr with
      | Err err => Some (errors_Wrap err "failed to create validation error message")
      | Ok text => Some (errors_New text)
      end
    | (true, _, None) => runValidators i rest templateModel
    end
  end.

(** [func (i *Ironman) Install(templateLocator string) error] *)
Definition Install (i : Ironman) (templateLocator : string) : M (World FS DB) (option error) :=
  r <~ call_manager_Install templateLocator;;
  match r with
  | Err err => ret (Some err)
  | Ok templateDirectory =>
    let templatePath := manager_TemplateLocation templateDirectory in
    r <~ call_reader_Read templatePath;;
    match r with
    | Err err =>
      (* rollback manager installation *)
      call_manager_Uninstall templateDirectory;;;
      ret (Some (errors_Wrap err "failed to read template model"))
    | Ok templateModel =>
      match runValidators i (validators i) templateModel with
      | Some err => ret (Some err)
      | None =>
        let templateModel := set_SourceType templateModel SourceTypeURL in
        r <~ call_index_Index templateModel;;
        match r with
        | Err err =>
          (* rollback manager installation *)
          call_manager_Uninstall templateDirectory;;;
          ret (Some err)
        | Ok _ => ret None
        end
      end
    end
  end.

(** [func (i *Ironman) Link(templatePath, templateID string) error] *)
Definition Link (i : Ironman) (templatePath templateID : string) : M (World FS DB) (option error) :=
  r <~ call_manager_Link templatePath templateID;;
  match r with
  | Err err => ret (Some err)
  | Ok linkPath =>
    r <~ call_reader_Read linkPath;;
    match r with
    | Err err =>
      call_manager_Unlink templateID;;;
      ret (Some err)
    | Ok templateModel =>
      let templateModel := set_ID templateModel templateID in
      let templateModel := set_SourceType templateModel SourceTypeLink in
      r <~ call_index_Index templateModel;;
      match r with
      | Err err =>
        call_manager_Unlink templateID;;;
        ret (Some err)
      | Ok _ => ret None
      end
    end
  end.

(** [func (i *Ironman) List() ([]*model.Template, error)] *)
Definition List (i : Ironman) : M (World FS DB) (result (list Template)) :=
  r <~ call_index_List;;
  match r with
  | Err err => ret (Err err)
  | Ok results => ret (Ok results)
  end.

(** [func (i *Ironman) Uninstall(templateID string) error] *)
Definition Uninstall (i : Ironman) (templateID : string) : M (World FS DB) (option error) :=
  r <~ call_index_Exists templateID;;
  match r with
  | Err err =>
    ret (Some (errors_Wrapf err ("failed to validate if template exists " +:+ templateID)))
  | Ok false =>
    ret (Some (errors_Errorf ("template " +:+ templateID +:+ " is not installed")))
  | Ok true =>
    r <~ call_index_FindTemplateByID templateID;;
    match r with
    | Err err =>
      ret (Some (errors_Wrapf err ("failed to get template model " +:+ templateID)))
    | Ok model =>
      err <~ call_manager_Uninstall (DirectoryName model);;
      match err with
      | Some err => ret (Some err)
      | None =>
        r <~ call_index_Delete templateID;;
        match r with
        | Err err => ret (Some err)
        | Ok _ => ret None
        end
      end
    end
  end.

(** [func (i *Ironman) Unlink(templateID string) error] *)
Definition Unlink (i : Ironman) (templateID : string) : M (World FS DB) (option error) :=
  err <~ call_manager_Unlink templateID;;
  match err with
  | Some err => ret (Some err)
  | None =>
    r <~ call_index_Delete templateID;;
    match r with
    | Err err => ret (Some err)
    | Ok _ => ret None
    end
  end.

(** [func (i *Ironman) Update(templateID string) error] *)
Definition Update (i : Ironman) (templateID : string) : M (World FS DB) (option error) :=
  r <~ call_index_Exists templateID;;
  match r with
  | Err err =>
    ret (Some (errors_Wrapf err ("failed to validate if template exists " +:+ templateID)))
  | Ok false =>
    ret (Some (errors_Errorf ("template '" +:+ templateID +:+ "' is not installed")))
  | Ok true =>
    r <~ call_index_FindTemplateByID templateID;;
    match r with
    | Err err =>
      ret (Some (errors_Wrapf err ("failed to get template model " +:+ templateID)))
    | Ok model =>
      err <~ call_manager_Update (DirectoryName model);;
      match err with
      | Some err => ret (Some err)
      | None => ret None
      end
    end
  end.

(** [func isDirEmpty(name string) (bool, error)]: it opens the
    directory and asks for one name; it reads and writes nothing. *)
Definition isDirEmpty (name : string) (s : FS) : bool * option error :=
  match os_Open name s with
  | Some err => (false, Some err)
  | None =>
    match snd (file_Readdirnames name 1 s) with
    | Some EOF => (true, None)
    | err => (false, err) (* Either not empty or error, suits both cases *)
    end
  end.

Definition call_isDirEmpty (name : string) : M (World FS DB) (bool * option error) :=
  read_fs (EIsDirEmpty name) (isDirEmpty name).

(** Lines 395-410 of [Generate]: the metadata of a linked template is
    read again and the Index updated; any other template is used as
    the Index has it. *)
Definition refreshLinked (i : Ironman) (templateID : string) (templateModel : Template)
  : M (World FS DB) (result Template) :=
  if decide (tSourceType templateModel = SourceTypeLink) then
    let templatePath := manager_TemplateLocation (DirectoryName templateModel) in
    r <~ call_reader_Read templatePath;;
    match r with
    | Err err =>
      ret (Err (errors_Wrapf err ("failed to update metadata for template " +:+ templateID)))
    | Ok templateModel =>
      let templateModel := set_ID templateModel templateID in
      let templateModel := set_SourceType templateModel SourceTypeLink in
      err <~ call_index_Update templateModel;;
      match err with
      | Some err =>
        ret (Err (errors_Wrapf err ("Failed to update metadata for template " +:+ templateID)))
      | None => ret (Ok templateModel)
      end
    end
  else ret (Ok templateModel).

(** Lines 425-438 of [Generate]: the checks of a File generator. *)
Definition checkFileTarget (genteratorModel : Generator)
    (generationPath absGenerationPath : string) (force : bool)
  : M (World FS DB) (option error) :=
  let baseDir := filepath_Dir absGenerationPath in
  err <~ call_os_Stat baseDir;;
  if os_IsNotExist err then
    ret (Some (errors_Errorf
      ("directory " +:+ filepath_Dir generationPath +:+ " does not exists")))
  else
    let fileName := filepath_Base absGenerationPath in
    let filePath :=
      filepath_Join [baseDir;
                     FileGenerationRelativePath (gFileTypeOptions genteratorModel);
                     fileName] in
    err <~ call_os_Stat filePath;;
    if bool_decide (err = None) && negb force then
      ret (Some (errors_Errorf ("file already exists " +:+ filePath +:+ " ")))
    else ret None.

(** Lines 440-458 of [Generate]: the checks of any other generator. *)
Definition checkDirectoryTarget (absGenerationPath : string) (force : bool)
  : M (World FS DB) (option error) :=
  err <~ call_os_Mkdir absGenerationPath;;
  if os_IsPermission err then
    match err with
    | Some err =>
      ret (Some (errors_Wrapf err ("failed to create generation path " +:+ absGenerationPath)))
    | None => ret None
    end
  else if os_IsExist err && negb force then
    r <~ call_isDirEmpty absGenerationPath;;
    match r with
    | (_, Some err) =>
      ret (Some (errors_Wrapf err
        ("failed to validate if generation path is empty " +:+ error_Error err)))
    | (false, None) =>
      ret (Some (errors_Errorf ("Generation path is not empty " +:+ absGenerationPath)))
    | (true, None) => ret None
    end
  else ret None.

(** Lines 460-479 of [Generate]: the rendering walk. *)
Definition render (i : Ironman) (context : Ctx) (templateModel : Template)
    (genteratorModel : Generator) (absGenerationPath : string) (values : Values)
  : M (World FS DB) (option error) :=
  let generatorPath :=
    filepath_Join [home i; templatesDirectory; DirectoryName templateModel;
                   generatorsPath; gDirectoryName genteratorModel] in
  let data := mkGeneratorData templateModel genteratorModel values in
  err <~ on_fs (EGenerate generatorPath absGenerationPath)
               (engine i context generatorPath absGenerationPath data);;
  match err with
  | Some err => ret (Some err)
  | None => ret None
  end.

(** Lines 379-423 of [Generate]: the template, its generator and the
    absolute target path, or the error [Generate] returns. *)
Definition resolveGenerator (i : Ironman) (templateID generatorID generationPath : string)
  : M (World FS DB) (result (Template * Generator * string)) :=
  (* First validate if template exists *)
  r <~ call_index_Exists templateID;;
  match r with
  | Err err =>
    ret (Err (errors_Wrapf err ("failed to validate if template exists " +:+ templateID)))
  | Ok false =>
    ret (Err (errors_Errorf ("template '" +:+ templateID +:+ "' is not installed")))
  | Ok true =>
    r <~ call_index_FindTemplateByID templateID;;
    match r with
    | Err err =>
      ret (Err (errors_Wrapf err ("could not find template by ID " +:+ templateID)))
    | Ok templateModel =>
      r <~ refreshLinked i templateID templateModel;;
      match r with
      | Err err => ret (Err err)
      | Ok templateModel =>
        (* Get the generator after all the valitations to the template have been made *)
        match Template_Generator templateModel generatorID with
        | None =>
          ret (Err (errors_Errorf ("generator " +:+ generatorID +:+ " does not exists")))
        | Some genteratorModel =>
          match filepath_Abs generationPath with
          | Err err =>
            ret (Err (errors_Wrapf err
              ("failed to get absolute path for generation path " +:+ generationPath)))
          | Ok absGenerationPath =>
            ret (Ok (templateModel, genteratorModel, absGenerationPath))
          end
        end
      end
    end
  end.

(** [func (i *Ironman) Generate(context, templateID, generatorID,
    generationPath, values, force) error] *)
Definition Generate (i : Ironman) (context : Ctx)
    (templateID generatorID generationPath : string) (values : Values) (force : bool)
  : M (World FS DB) (option error) :=
  r <~ resolveGenerator i templateID generatorID generationPath;;
  match r with
  | Err err => ret (Some err)
  | Ok (templateModel, genteratorModel, absGenerationPath) =>
    err <~ (if decide (TType genteratorModel = GeneratorTypeFile)
            then checkFileTarget genteratorModel generationPath absGenerationPath force
            else checkDirectoryTarget absGenerationPath force);;
    match err with
    | Some err => ret (Some err)
    | None => render i context templateModel genteratorModel absGenerationPath values
    end
  end.

(** What an Index is expected to do with a model it accepts: a later
    lookup under the model's ID finds it. *)
Definition index_keeps_inserted : Prop :=
  forall (t : Template) (d d' : DB) (id' : string),
    index_Index t d = (Ok id', d') -> index_FindTemplateByID (ID t) d' = Ok t.

(** A validator accepts a model when it answers valid with no error. *)
Definition accepts (templateModel : Template) (validator : Validator) : Prop :=
  exists validationErr : Payload, validator templateModel = (true, validationErr, None).

(** [func (i *Ironman) EnsureIronmanHome() error] *)
Definition EnsureIronmanHome (i : Ironman) : M (World FS DB) (option error) :=
  err <~ call_os_Stat (home i);;
  if os_IsNotExist err then
    err <~ call_os_Mkdir (home i);;
    match err with
    | Some err =>
      ret (Some (errors_Wrapf err ("failed to initialize ironman home '" +:+ home i +:+ "'")))
    | None =>
      err <~ call_os_Mkdir (filepath_Join [home i; templatesDirectory]);;
      match err with
      | Some err =>
        ret (Some (errors_Wrapf err
          ("failed to initialize ironman home '" +:+ home i +:+ "'")))
      | None => ret None
      end
    end
  else ret None.

(** [func EnsureIronmanHome(ironmanHome string) error], the package
    function of the same name. *)
Definition pkg_EnsureIronmanHome (ironmanHome : string) : M (World FS DB) (option error) :=
  err <~ call_os_Stat ironmanHome;;
  if os_IsNotExist err then
    err <~ call_os_Mkdir ironmanHome;;
    match err with
    | Some err => ret (Some (errors_Wrap err "failed to initialize ironman home"))
    | None =>
      err <~ call_os_Mkdir (filepath_Join [ironmanHome; templatesDirectory]);;
      match err with
      | Some err => ret (Some (errors_Wrap err "failed to initialize ironman home"))
      | None => ret None
      end
    end
  else ret None.
End Facade.
End Ironman.

(** ** Package manager: the base manager *)
Module BaseManager.
Section Base.
Context {FS DB : Type}.
Context `{!OS FS, !FilePath}.

Definition managerTemplatesDirectory : string := "templates".

Record BaseManager : Type := mkBaseManager {
  path : string;
  templatesPath : string
}.

(** [template.Metadata], of which only the ID is set here. *)
Record Metadata : Type := mkMetadata { mID : string }.

(** [func NewBaseManager(path string) *BaseManager] *)
Definition NewBaseManager (path : string) : BaseManager :=
  let templatesPath := filepath_Join [path; managerTemplatesDirectory] in
  mkBaseManager path templatesPath.

(** [func validateTemplateID(templateID string) error] *)
Definition validateTemplateID (templateID : string) : option error :=
  if decide (templateID = EmptyString) then
    Some (errors_Errorf "a templateID cannot be empty")
  else None.

(** [func (b *BaseManager) TemplatePath(templateID string) string] *)
Definition TemplatePath (b : BaseManager) (templateID : string) : string :=
  filepath_Join [path b; managerTemplatesDirectory; templateID].

(** [func (b *BaseManager) Uninstall(templateID string) error] *)
Definition Uninstall (b : BaseManager) (templateID : string)
  : M (World FS DB) (option error) :=
  match validateTemplateID templateID with
  | Some err => ret (Some err)
  | None =>
    let templatePath := TemplatePath b templateID in
    err <~ call_os_RemoveAll templatePath;;
    match err with
    | Some err => ret (Some (errors_Wrapf err ("Failed to remove template " +:+ templateID)))
    | None => ret None
    end
  end.

(** [func (b *BaseManager) Find(templateID string) error] *)
Definition Find (b : BaseManager) (templateID : string)
  : M (World FS DB) (outcome (option error)) :=
  ret (Panic "not implemented").

(** [func (b *BaseManager) IsInstalled(templateID string) (bool, error)] *)
Definition IsInstalled (b : BaseManager) (templateID : string)
  : M (World FS DB) (bool * option error) :=
  match validateTemplateID templateID with
  | Some err => ret (false, Some err)
  | None =>
    let templatePath := TemplatePath b templateID in
    err <~ call_os_Stat templatePath;;
    match err with
    | Some e =>
      if os_IsNotExist err then ret (false, None)
      else ret (false, Some (errors_Wrapf e
                 ("verifying template installation ID: " +:+ templateID)))
    | None => ret (true, None)
    end
  end.

(** [func (b *BaseManager) Installed() ([]*template.Metadata, error)] *)
Definition Installed (b : BaseManager) : M (World FS DB) (result (list Metadata)) :=
  r <~ call_ioutil_ReadDir (templatesPath b);;
  match r with
  | Err err => ret (Err (errors_Wrap err "Failed to list al the available templates"))
  | Ok files => ret (Ok (List.map (fun f => mkMetadata f) files))
  end.

(** [func (b *BaseManager) Link(templatePath string, templateID string) error] *)
Definition Link (b : BaseManager) (templatePath templateID : string)
  : M (World FS DB) (option error) :=
  match validateTemplateID templateID with
  | Some err => ret (Some err)
  | None =>
    let linkPath := TemplatePath b templateID in
    err <~ call_os_Stat templatePath;;
    if os_IsNotExist err then
      match err with
      | Some err =>
        ret (Some (errors_Wrapf err
          ("Failed to create symlink to ironman manager path should "
           +:+ templatePath +:+ " exists ")))
      | None => ret None (* errors.Wrapf of nil is nil *)
      end
    else
      match filepath_Abs templatePath with
      | Err err =>
        ret (Some (errors_Wrapf err
          ("Failed to create symlink to ironman manager for " +:+ templatePath
           +:+ " with ID " +:+ templateID)))
      | Ok absTemplatePath =>
        err <~ call_os_Symlink absTemplatePath linkPath;;
        match err with
        | Some err =>
          ret (Some (errors_Wrapf err
            ("Failed to create symlink to ironman manager for " +:+ templatePath
             +:+ " with ID " +:+ templateID)))
        | None => ret None
        end
      end
  end.

(** [func (b *BaseManager) Unlink(templateID string) error] *)
Definition Unlink (b : BaseManager) (templateID : string)
  : M (World FS DB) (option error) :=
  match validateTemplateID templateID with
  | Some err => ret (Some err)
  | None =>
    let templatePath := TemplatePath b templateID in
    err <~ call_os_Stat templatePath;;
    if os_IsNotExist err then
      match err with
      | Some err =>
        ret (Some (errors_Wrapf err
          ("Failed to remove symlink for template ID " +:+ error_Error err)))
      | None => ret None (* errors.Wrapf of nil is nil *)
      end
    else
      err <~ call_os_Remove templatePath;;
      match err with
      | Some err =>
        ret (Some (errors_Wrapf err
          ("Failed to remove symlink for template ID " +:+ templateID)))
      | None => ret None
      end
  end.

(** [func (b *BaseManager) Install(templateLocator string) error]:
    not implemented for base manager since it depends on specific
    provider. *)
Definition Install (b : BaseManager) (templateLocator : string)
  : M (World FS DB) (outcome (option error)) :=
  ret (Panic "not implemented").

(** [func (b *BaseManager) Update(templateID string) error]: not
    implemented for base manager since it depend on specific
    provider. *)
Definition Update (b : BaseManager) (templateID : string)
  : M (World FS DB) (outcome (option error)) :=
  ret (Panic "not implemented").

(** [func InitIronmanHome(ironmanHome string) error] *)
Definition InitIronmanHome (ironmanHome : string) : M (World FS DB) (option error) :=
  err <~ call_os_Stat ironmanHome;;
  if os_IsNotExist err then
    err <~ call_os_Mkdir ironmanHome;;
    match err with
    | Some err => ret (Some (errors_Wrap err "Failed to initialize ironman home"))
    | None =>
      err <~ call_os_Mkdir (filepath_Join [ironmanHome; managerTemplatesDirectory]);;
      match err with
      | Some err => ret (Some (errors_Wrap err "Failed to initialize ironman home"))
      | None => ret None
      end
    end
  else ret None.
End Base.
End BaseManager.

(** ** Package git: the git-backed repository *)
Module Git.

(** [strings.HasSuffix] and [strings.TrimSuffix] of the Go library. *)
Definition strings_HasSuffix (s suffix : string) : bool :=
  (String.length suffix <=? String.length s)%nat
  && String.eqb (substring (String.length s - String.length suffix)
                           (String.length suffix) s) suffix.

Definition strings_TrimSuffix (s suffix : string) : string :=
  if strings_HasSuffix s suffix
  then substring 0 (String.length s - String.length suffix) s
  else s.

(** [path.Base] of the Go library: the trailing slashes are removed,
    then what follows the last slash is kept; the empty path gives
    ".", a path of slashes only gives "/". *)
Fixpoint strip_trailing_slashes (s : string) : string :=
  match s with
  | EmptyString => EmptyString
  | String c s' =>
    match strip_trailing_slashes s' with
    | EmptyString => if Ascii.eqb c "/"%char then EmptyString else String c EmptyString
    | r => String c r
    end
  end.

Fixpoint after_last_slash (s : string) : option string :=
  match s with
  | EmptyString => None
  | String c s' =>
    match after_last_slash s' with
    | Some b => Some b
    | None => if Ascii.eqb c "/"%char then Some s' else None
    end
  end.

Definition path_Base (path : string) : string :=
  if decide (path = EmptyString) then "."
  else
    let path := strip_trailing_slashes path in
    let path := match after_last_slash path with
                | Some b => b
                | None => path
                end in
    if decide (path = EmptyString) then "/" else path.

Fixpoint no_slash (s : string) : bool :=
  match s with
  | EmptyString => true
  | String c s' => negb (Ascii.eqb c "/"%char) && no_slash s'
  end.

(** What [Pull] of go-git returns besides [nil]: the sentinel
    [NoErrAlreadyUpToDate], which is recognised by identity, or
    another error. *)
Inductive PullError : Type :=
| NoErrAlreadyUpToDate
| PullFailed (err : error).

(** The calls made on go-git: [NewFilesystemRepository(path)], and on
    the repository it gives [Clone] with the URL and [Pull]. *)
Class GoGit (FS : Type) : Type := {
  gogit_NewFilesystemRepository : string -> FS -> option error * FS;
  gogit_Clone : string -> string -> FS -> option error * FS;
  gogit_Pull : string -> FS -> option PullError * FS
}.

Section Repository.
Context {FS : Type} `{!GoGit FS}.

(** [Repository] embeds the base repository, of which it uses
    [TemplatePath]. *)
Record Repository : Type := mkRepository {
  TemplatePath : string -> string
}.

(** [func (r *Repository) templatePathFromLocation(location string) string] *)
Definition templatePathFromLocation (r : Repository) (location : string) : string :=
  let templateID := path_Base (strings_TrimSuffix location ".git") in
  let templatePath := TemplatePath r templateID in
  templatePath.

(** [func (r *Repository) Install(location string) error] *)
Definition Install (r : Repository) (location : string) : M FS (option error) :=
  let templatePath := templatePathFromLocation r location in
  err <~ gogit_NewFilesystemRepository templatePath;;
  match err with
  | Some err =>
    ret (Some (errors_Wrapf err ("Failed to get template repository " +:+ location)))
  | None =>
    err <~ gogit_Clone templatePath location;;
    match err with
    | Some err => ret (Some (errors_Wrapf err ("Failed to install template  " +:+ location)))
    | None => ret None
    end
  end.

(** [func (r *Repository) Update(id string) error] *)
Definition Update (r : Repository) (id : string) : M FS (option error) :=
  let templatePath := templatePathFromLocation r id in
  err <~ gogit_NewFilesystemRepository templatePath;;
  match err with
  | Some err => ret (Some (errors_Wrapf err ("Failed to get template repository " +:+ id)))
  | None =>
    err <~ gogit_Pull templatePath;;
    match err with
    | Some (PullFailed err) =>
      ret (Some (errors_Wrapf err ("Failed to Update template  " +:+ id)))
    | Some NoErrAlreadyUpToDate | None => ret None
    end
  end.
End Repository.
End Git.

(** The calls that start the rendering walk, and the calls of package
    [os] on a given path. *)
Definition is_generate (e : Event) : bool :=
  match e with
  | EGenerate _ _ => true
  | _ => false
  end.

Definition os_call_on (p : string) (e : Event) : bool :=
  match e with
  | EOsStat q | EOsRemoveAll q | EOsRemove q => bool_decide (q = p)
  | _ => false
  end.

(** ** An executable environment

  A small filesystem, an in-memory Index and a backend, to run the
  embedded functions on concrete inputs.  Paths are clean absolute
  strings with [/] as separator. *)
Module Sim.

(** The last [/] of a path splits it into directory and base name. *)
Fixpoint split_last_slash (s : string) : option (string * string) :=
  match s with
  | EmptyString => None
  | String c s' =>
    match split_last_slash s' with
    | Some (d, b) => Some (String c d, b)
    | None => if Ascii.eqb c "/"%char then Some (EmptyString, s') else None
    end
  end.

Definition Dir (p : string) : string :=
  match split_last_slash p with
  | Some (EmptyString, _) => "/"
  | Some (d, _) => d
  | None => "."
  end.

Definition Base (p : string) : string :=
  match split_last_slash p with
  | Some (_, b) => b
  | None => p
  end.

Fixpoint Join (elem : list string) : string :=
  match elem with
  | [] => EmptyString
  | e :: rest =>
    let r := Join rest in
    if decide (e = EmptyString) then r
    else if decide (r = EmptyString) then e
    else e +:+ "/" +:+ r
  end.

Definition cwd : string := "/work".

Definition Abs (p : string) : result string :=
  match p with
  | String "/" _ => Ok p
  | _ => Ok (Join [cwd; p])
  end.

#[global] Instance sim_filepath : FilePath :=
  {| filepath_Abs := Abs; filepath_Dir := Dir;
     filepath_Base := Base; filepath_Join := Join |}.

Inductive Node : Type := NDir | NFile | NLink (target : string).

(** [nodes]: what is on disk.  [meta]: the template declaration that
    can be decoded under a template root (none: the declaration is
    missing or malformed).  [remotes]: the declaration each locator
    serves, if it serves a well-formed one.  [locked]: paths on which permission is denied. *)
Record SimFS : Type := mkSimFS {
  nodes : gmap string Node;
  meta : gmap string Template;
  remotes : gmap string (option Template);
  locked : gset string
}.

Definition SimDB : Type := gmap string Template.

Definition exists_ (p : string) (s : SimFS) : bool :=
  bool_decide (is_Some (nodes s !! p)).

Definition below (p k : string) : bool := String.prefix (p +:+ "/") k.

Definition children (p : string) (s : SimFS) : list string :=
  List.filter (fun k => bool_decide (Dir k = p) && negb (bool_decide (k = p)))
              (List.map fst (map_to_list (nodes s))).

Definition put (p : string) (n : Node) (s : SimFS) : SimFS :=
  mkSimFS (<[p := n]> (nodes s)) (meta s) (remotes s) (locked s).

Definition remove_tree (p : string) (s : SimFS) : SimFS :=
  mkSimFS (filter (fun kv => negb (bool_decide (kv.1 = p) || below p kv.1) = true) (nodes s))
          (filter (fun kv => negb (bool_decide (kv.1 = p) || below p kv.1) = true) (meta s))
          (remotes s) (locked s).

Definition remove_node (p : string) (s : SimFS) : SimFS :=
  mkSimFS (delete p (nodes s)) (meta s) (remotes s) (locked s).

Definition sim_home : string := "/home/tony/.ironman".

Definition TemplateLocation (directoryName : string) : string :=
  Join [sim_home; "templates"; directoryName].

(** Modelled from the spec: the backend of the Source Manager the
    facade is built with is not among the sources (spec 4.2). *)
#[global] Instance sim_manager : Manager SimFS :=
  {| manager_Install locator s :=
       let dir := Base locator in
       let p := TemplateLocation dir in
       if exists_ p s then (Err (New ("repository already exists " +:+ p)), s)
       else match remotes s !! locator with
            | None => (Err (New ("repository not found " +:+ locator)), s)
            | Some None => (Ok dir, put p NDir s)
            | Some (Some t) =>
              (Ok dir, mkSimFS (<[p := NDir]> (nodes s)) (<[p := t]> (meta s))
                               (remotes s) (locked s))
            end;
     manager_Update dir s :=
       if exists_ (TemplateLocation dir) s then (None, s)
       else (Some (PathError "open" (TemplateLocation dir) ENOENT), s);
     manager_Uninstall dir s :=
       let p := TemplateLocation dir in
       if bool_decide (p ∈ locked s) then (Some (PathError "unlinkat" p EACCES), s)
       else (None, remove_tree p s);
     manager_Link templatePath templateID s :=
       let linkPath := TemplateLocation templateID in
       if negb (exists_ templatePath s) then
         (Err (PathError "stat" templatePath ENOENT), s)
       else if exists_ linkPath s then
         (Err (PathError "symlink" linkPath EEXIST), s)
       else (Ok linkPath, put linkPath (NLink templatePath) s);
     manager_Unlink templateID s :=
       let p := TemplateLocation templateID in
       if negb (exists_ p s) then (Some (PathError "stat" p ENOENT), s)
       else if bool_decide (p ∈ locked s) then (Some (PathError "remove" p EACCES), s)
       else (None, remove_node p s);
     manager_TemplateLocation := TemplateLocation |}.

(** Modelled from the spec: the Model Reader is not among the sources
    (spec 6); a link is read through. *)
#[global] Instance sim_reader : Reader SimFS :=
  {| reader_Read p s :=
       let root := match nodes s !! p with
                   | Some (NLink target) => target
                   | _ => p
                   end in
       match meta s !! root with
       | Some t => Ok t
       | None => Err (New ("failed to decode the template declaration under " +:+ root))
       end |}.

(** Modelled from the spec: the Index adapter is not among the
    sources (spec 4.1). *)
#[global] Instance sim_index : Index SimDB :=
  {| index_Exists id d := Ok (bool_decide (is_Some (d !! id)));
     index_FindTemplateByID id d :=
       match d !! id with
       | Some t => Ok t
       | None => Err (New ("not found " +:+ id))
       end;
     index_Index t d :=
       match d !! ID t with
       | Some _ => (Err (New ("already exists " +:+ ID t)), d)
       | None => (Ok (ID t), <[ID t := t]> d)
       end;
     index_Update t d :=
       match d !! ID t with
       | Some _ => (None, <[ID t := t]> d)
       | None => (Some (New ("not found " +:+ ID t)), d)
       end;
     index_Delete id d := (Ok id, delete id d);
     index_List d := Ok (List.map snd (map_to_list d)) |}.

#[global] Instance sim_os : OS SimFS :=
  {| os_Stat p s :=
       if exists_ p s then None else Some (PathError "stat" p ENOENT);
     os_Mkdir p s :=
       if exists_ p s then inl (PathError "mkdir" p EEXIST)
       else if negb (exists_ (Dir p) s) then inl (PathError "mkdir" p ENOENT)
       else if bool_decide (Dir p ∈ locked s) then inl (PathError "mkdir" p EACCES)
       else inr (put p NDir s);
     os_Open p s :=
       if negb (exists_ p s) then Some (PathError "open" p ENOENT)
       else if bool_decide (p ∈ locked s) then Some (PathError "open" p EACCES)
       else None;
     file_Readdirnames p n s :=
       match nodes s !! p with
       | Some NFile => ([], Some (PathError "readdirent" p ENOTDIR))
       | _ => match children p s with
              | [] => ([], Some EOF)
              | names => (take n (List.map Base names), None)
              end
       end;
     os_RemoveAll p s :=
       if bool_decide (p ∈ locked s) then (Some (PathError "unlinkat" p EACCES), s)
       else (None, remove_tree p s);
     os_Remove p s :=
       if negb (exists_ p s) then inl (PathError "remove" p ENOENT)
       else if bool_decide (p ∈ locked s) then inl (PathError "remove" p EACCES)
       else inr (remove_node p s);
     os_Symlink oldname newname s :=
       if exists_ newname s then inl (PathError "symlink" newname EEXIST)
       else inr (put newname (NLink oldname) s);
     ioutil_ReadDir p s :=
       if exists_ p s then Ok (List.map Base (children p s))
       else Err (PathError "open" p ENOENT) |}.

(** The engine writes one file: under the target when it is a
    directory, at the target when its parent exists. *)
Definition sim_engine {Values : Type} (_ : unit) (generatorPath targetPath : string)
    (data : @Ironman.GeneratorData Values) (s : SimFS) : option error * SimFS :=
  match nodes s !! targetPath with
  | Some NDir => (None, put (Join [targetPath; "generated"]) NFile s)
  | _ => if exists_ (Dir targetPath) s then (None, put targetPath NFile s)
         else (Some (PathError "open" targetPath ENOENT), s)
  end.

Definition Values : Type := list (string * string).

Definition SimValidator : Type := @Ironman.Validator string.
Definition SimIronman : Type := @Ironman.Ironman SimFS string Values unit.

Definition ironman (validators : list SimValidator) : SimIronman :=
  Ironman.mkIronman sim_home validators (fun _ => Ok EmptyString) sim_engine.

Definition accept : SimValidator := fun _ => (true, EmptyString, None).
Definition reject : SimValidator := fun _ => (false, "mandatory field missing", None).

(** Some templates and worlds. *)
Definition gen_app : Generator :=
  mkGenerator "app" GeneratorTypeDirectory "app" (mkFileTypeOptions EmptyString).
Definition gen_controller : Generator :=
  mkGenerator "controller" GeneratorTypeFile "controller" (mkFileTypeOptions "controllers").

Definition declared : Template :=
  mkTemplate "base" "base" SourceTypeURL [gen_app; gen_controller].

Definition locator : string := "https://github.com/ironman-project/base".
Definition broken_locator : string := "https://github.com/ironman-project/broken".

Definition disk0 : gmap string Node :=
  list_to_map [("/", NDir); ("/home", NDir); ("/home/tony", NDir);
               (sim_home, NDir); (Join [sim_home; "templates"], NDir);
               ("/work", NDir); ("/work/full", NDir); ("/work/full/main.go", NFile);
               ("/work/empty", NDir);
               ("/work/controllers", NDir); ("/work/controllers/user", NFile);
               ("/src", NDir); ("/src/mine", NDir)].

Definition fs0 : SimFS :=
  mkSimFS disk0 {["/src/mine" := declared]}
          (<[locator := Some declared]> {[broken_locator := None]}) ∅.

Definition world0 : World SimFS SimDB := mkWorld fs0 ∅ [].

(** The filesystem once the backend has installed [locator], and the
    world once [Install] has. *)
Definition fs1 : SimFS := snd (manager_Install locator fs0).
Definition world1 : World SimFS SimDB :=
  snd (Ironman.Install (ironman [accept]) locator world0).

(** Permission denied on a path. *)
Definition lock (p : string) (s : SimFS) : SimFS :=
  mkSimFS (nodes s) (meta s) (remotes s) ({[p]} ∪ locked s).

Definition lock_world (p : string) (w : World SimFS SimDB) : World SimFS SimDB :=
  mkWorld (lock p (fs w)) (db w) (log w).

(** A base manager rooted at the home directory. *)
Definition base : BaseManager.BaseManager := BaseManager.NewBaseManager sim_home.

(** The world once [/src/mine] is linked under the name it declares,
    and the same with the declaration under [/src/mine] gone. *)
Definition world_linked : World SimFS SimDB :=
  snd (Ironman.Link (ironman []) "/src/mine" "base" world0).

Definition forget_meta (w : World SimFS SimDB) : World SimFS SimDB :=
  mkWorld (mkSimFS (nodes (fs w)) ∅ (remotes (fs w)) (locked (fs w))) (db w) (log w).

(** A world without the home directory. *)
Definition world_bare : World SimFS SimDB :=
  mkWorld (mkSimFS (list_to_map [("/", NDir); ("/home", NDir); ("/home/tony", NDir)])
                   ∅ ∅ ∅) ∅ [].

(** go-git on the small filesystem: a repository is a directory, a
    clone needs the locator to be served, a pull of a repository that
    is there finds nothing new. *)
#[global] Instance sim_gogit : Git.GoGit SimFS :=
  {| Git.gogit_NewFilesystemRepository p s :=
       if bool_decide (p ∈ locked s) then (Some (PathError "mkdir" p EACCES), s)
       else (None, s);
     Git.gogit_Clone p url s :=
       match remotes s !! url with
       | None => (Some (New "repository not found"), s)
       | Some _ => (None, put p NDir s)
       end;
     Git.gogit_Pull p s :=
       if exists_ p s then (Some Git.NoErrAlreadyUpToDate, s)
       else (Some (Git.PullFailed (New "repository does not exist")), s) |}.

Definition repository : Git.Repository := Git.mkRepository TemplateLocation.
End Sim.


(** * Properties *)

(** Unfolding of the monad and of the logged calls. *)
Ltac run_calls :=
  unfold bind, ret,
    call_manager_Install, call_manager_Update, call_manager_Uninstall,
    call_manager_Link, call_manager_Unlink, call_reader_Read,
    call_index_Exists, call_index_FindTemplateByID, call_index_Index,
    call_index_Update, call_index_Delete, call_index_List,
    call_os_Stat, call_os_Mkdir, call_os_RemoveAll, call_os_Remove,
    call_os_Symlink, call_ioutil_ReadDir, Ironman.call_isDirEmpty,
    on_fs, on_db, read_fs, read_db, syscall, logged in *;
  cbn [fs db log fst snd] in *.

(** Let the code go on, and use the known result of a call. *)
Ltac go := cbn [fs db log fst snd] in *.
Ltac known H := rewrite H; go.

(** Evaluation on a concrete input. *)
Ltac by_running := vm_compute; reflexivity.

(** The log is written [log w ++ events]. *)
Ltac flat_log := rewrite <- ?app_assoc; cbn [app].

(** Case analysis on the next result the code inspects. *)
Ltac next_case :=
  match goal with
  | |- context [match ?x with _ => _ end] =>
    lazymatch x with
    | context [match _ with _ => _ end] => fail
    | _ => destruct x eqn:?
    end
  | |- context [if ?x then _ else _] =>
    lazymatch x with
    | context [if _ then _ else _] => fail
    | _ => destruct x eqn:?
    end
  end; cbn [fs db log fst snd] in *.

Section LifecycleProperties.
Context {FS DB Payload Values Ctx : Type}.
Context `{!Manager FS, !Reader FS, !Index DB, !OS FS, !FilePath}.

Implicit Types (i : @Ironman.Ironman FS Payload Values Ctx) (w : World FS DB).

(** *** Uninstall *)

Lemma Uninstall_absent i templateID w :
  index_Exists templateID (db w) = Ok false ->
  Ironman.Uninstall i templateID w
  = (Some (errors_Errorf ("template " +:+ templateID +:+ " is not installed")),
     mkWorld (fs w) (db w) (log w ++ [EIndexExists templateID])).
Proof.
  intros Habsent. unfold Ironman.Uninstall. run_calls.
  known Habsent. reflexivity.
Qed.

Lemma Uninstall_removal_fails i templateID w model err fs' :
  index_Exists templateID (db w) = Ok true ->
  index_FindTemplateByID templateID (db w) = Ok model ->
  manager_Uninstall (DirectoryName model) (fs w) = (Some err, fs') ->
  Ironman.Uninstall i templateID w
  = (Some err,
     mkWorld fs' (db w)
       (log w ++ [EIndexExists templateID; EIndexFind templateID;
                  EManagerUninstall (DirectoryName model)])).
Proof.
  intros Hex Hfind Hrm. unfold Ironman.Uninstall. run_calls.
  known Hex. known Hfind. known Hrm. flat_log. reflexivity.
Qed.

Lemma Uninstall_removal_succeeds i templateID w model fs' :
  index_Exists templateID (db w) = Ok true ->
  index_FindTemplateByID templateID (db w) = Ok model ->
  manager_Uninstall (DirectoryName model) (fs w) = (None, fs') ->
  Ironman.Uninstall i templateID w
  = (match fst (index_Delete templateID (db w)) with
     | Err err => Some err
     | Ok _ => None
     end,
     mkWorld fs' (snd (index_Delete templateID (db w)))
       (log w ++ [EIndexExists templateID; EIndexFind templateID;
                  EManagerUninstall (DirectoryName model);
                  EIndexDelete templateID])).
Proof.
  intros Hex Hfind Hrm. unfold Ironman.Uninstall. run_calls.
  known Hex. known Hfind. known Hrm.
  destruct (index_Delete templateID (db w)) as [[id' | err] db'];
    flat_log; reflexivity.
Qed.

(** C3.  [Uninstall] of an ID the Index does not have returns the
    not-installed error, leaves filesystem and Index as they are and
    calls nothing but [Exists].  For an ID the Index has, the call
    sequence is [Exists], [FindTemplateByID], the Source Manager's
    [Uninstall] of the stored directory name and only then the Index's
    [Delete]; when the removal fails its error is returned, [Delete] is
    not called and the Index is as before. *)
Theorem Uninstall_contract i templateID w :
  (index_Exists templateID (db w) = Ok false ->
   Ironman.Uninstall i templateID w
   = (Some (errors_Errorf ("template " +:+ templateID +:+ " is not installed")),
      mkWorld (fs w) (db w) (log w ++ [EIndexExists templateID])))
  /\ (forall model err fs',
       index_Exists templateID (db w) = Ok true ->
       index_FindTemplateByID templateID (db w) = Ok model ->
       manager_Uninstall (DirectoryName model) (fs w) = (Some err, fs') ->
       Ironman.Uninstall i templateID w
       = (Some err,
          mkWorld fs' (db w)
            (log w ++ [EIndexExists templateID; EIndexFind templateID;
                       EManagerUninstall (DirectoryName model)])))
  /\ (forall model fs',
       index_Exists templateID (db w) = Ok true ->
       index_FindTemplateByID templateID (db w) = Ok model ->
       manager_Uninstall (DirectoryName model) (fs w) = (None, fs') ->
       Ironman.Uninstall i templateID w
       = (match fst (index_Delete templateID (db w)) with
          | Err err => Some err
          | Ok _ => None
          end,
          mkWorld fs' (snd (index_Delete templateID (db w)))
            (log w ++ [EIndexExists templateID; EIndexFind templateID;
                       EManagerUninstall (DirectoryName model);
                       EIndexDelete templateID]))).
Proof.
  split; [| split].
  - apply Uninstall_absent.
  - intros model err fs'. apply Uninstall_removal_fails.
  - intros model fs'. apply Uninstall_removal_succeeds.
Qed.


(** *** Install and Link: what happens on each failure *)

Lemma Install_read_failure i templateLocator w dir fs1 e :
  manager_Install templateLocator (fs w) = (Ok dir, fs1) ->
  reader_Read (manager_TemplateLocation dir) fs1 = Err e ->
  Ironman.Install i templateLocator w
  = (Some (errors_Wrap e "failed to read template model"),
     mkWorld (snd (manager_Uninstall dir fs1)) (db w)
       (log w ++ [EManagerInstall templateLocator;
                  EReaderRead (manager_TemplateLocation dir);
                  EManagerUninstall dir])).
Proof.
  intros Hinst Hread. unfold Ironman.Install. run_calls.
  known Hinst. known Hread.
  destruct (manager_Uninstall dir fs1) as [rb fs2]. flat_log. reflexivity.
Qed.

Lemma Install_index_failure i templateLocator w dir fs1 t e db1 :
  manager_Install templateLocator (fs w) = (Ok dir, fs1) ->
  reader_Read (manager_TemplateLocation dir) fs1 = Ok t ->
  Ironman.runValidators i (Ironman.validators i) t = None ->
  index_Index (set_SourceType t SourceTypeURL) (db w) = (Err e, db1) ->
  Ironman.Install i templateLocator w
  = (Some e,
     mkWorld (snd (manager_Uninstall dir fs1)) db1
       (log w ++ [EManagerInstall templateLocator;
                  EReaderRead (manager_TemplateLocation dir);
                  EIndexIndex (set_SourceType t SourceTypeURL);
                  EManagerUninstall dir])).
Proof.
  intros Hinst Hread Hval Hidx. unfold Ironman.Install. run_calls.
  known Hinst. known Hread. known Hval. known Hidx.
  destruct (manager_Uninstall dir fs1) as [rb fs2]. flat_log. reflexivity.
Qed.

Lemma Install_success i templateLocator w dir fs1 t id' db1 :
  manager_Install templateLocator (fs w) = (Ok dir, fs1) ->
  reader_Read (manager_TemplateLocation dir) fs1 = Ok t ->
  Ironman.runValidators i (Ironman.validators i) t = None ->
  index_Index (set_SourceType t SourceTypeURL) (db w) = (Ok id', db1) ->
  Ironman.Install i templateLocator w
  = (None,
     mkWorld fs1 db1
       (log w ++ [EManagerInstall templateLocator;
                  EReaderRead (manager_TemplateLocation dir);
                  EIndexIndex (set_SourceType t SourceTypeURL)])).
Proof.
  intros Hinst Hread Hval Hidx. unfold Ironman.Install. run_calls.
  known Hinst. known Hread. known Hval. known Hidx. flat_log. reflexivity.
Qed.

Lemma Link_read_failure i templatePath templateID w linkPath fs1 e :
  manager_Link templatePath templateID (fs w) = (Ok linkPath, fs1) ->
  reader_Read linkPath fs1 = Err e ->
  Ironman.Link i templatePath templateID w
  = (Some e,
     mkWorld (snd (manager_Unlink templateID fs1)) (db w)
       (log w ++ [EManagerLink templatePath templateID; EReaderRead linkPath;
                  EManagerUnlink templateID])).
Proof.
  intros Hlink Hread. unfold Ironman.Link. run_calls.
  known Hlink. known Hread.
  destruct (manager_Unlink templateID fs1) as [rb fs2]. flat_log. reflexivity.
Qed.

Lemma Link_index_failure i templatePath templateID w linkPath fs1 t e db1 :
  manager_Link templatePath templateID (fs w) = (Ok linkPath, fs1) ->
  reader_Read linkPath fs1 = Ok t ->
  index_Index (set_SourceType (set_ID t templateID) SourceTypeLink) (db w) = (Err e, db1) ->
  Ironman.Link i templatePath templateID w
  = (Some e,
     mkWorld (snd (manager_Unlink templateID fs1)) db1
       (log w ++ [EManagerLink templatePath templateID; EReaderRead linkPath;
                  EIndexIndex (set_SourceType (set_ID t templateID) SourceTypeLink);
                  EManagerUnlink templateID])).
Proof.
  intros Hlink Hread Hidx. unfold Ironman.Link. run_calls.
  known Hlink. known Hread. known Hidx.
  destruct (manager_Unlink templateID fs1) as [rb fs2]. flat_log. reflexivity.
Qed.

(** C1.  When a validator turns the model down, [Install] returns the
    validation error and the Source Manager's [Uninstall] is never
    called: the log ends with the model read, and the filesystem is the
    one [manager.Install] left, with the directory it has just
    materialized.  The model-read and the index-insert failures do roll
    back ([Install_read_failure], [Install_index_failure]). *)
Theorem Install_validation_failure_not_rolled_back i templateLocator w dir fs1 t err :
  manager_Install templateLocator (fs w) = (Ok dir, fs1) ->
  reader_Read (manager_TemplateLocation dir) fs1 = Ok t ->
  Ironman.runValidators i (Ironman.validators i) t = Some err ->
  Ironman.Install i templateLocator w
  = (Some err,
     mkWorld fs1 (db w)
       (log w ++ [EManagerInstall templateLocator;
                  EReaderRead (manager_TemplateLocation dir)])).
Proof.
  intros Hinst Hread Hval. unfold Ironman.Install. run_calls.
  known Hinst. known Hread. known Hval. flat_log. reflexivity.
Qed.

(** C2.  The error of a failing compensation is dropped.  When the
    rollback [Uninstall] of [Install] fails, [Install] still returns the
    primary cause alone: the model-read error under the message
    "failed to read template model", or the index-insert error as it
    is.  When the rollback [Unlink] of [Link] fails, [Link] returns the
    model-read error or the index-insert error as it is.  The rollback
    error is never put in the place of the primary cause. *)
Theorem compensation_failure_discarded i w :
  (forall templateLocator dir fs1 e rollbackErr fs2,
     manager_Install templateLocator (fs w) = (Ok dir, fs1) ->
     reader_Read (manager_TemplateLocation dir) fs1 = Err e ->
     manager_Uninstall dir fs1 = (Some rollbackErr, fs2) ->
     fst (Ironman.Install i templateLocator w)
     = Some (errors_Wrap e "failed to read template model"))
  /\ (forall templateLocator dir fs1 t e db1 rollbackErr fs2,
       manager_Install templateLocator (fs w) = (Ok dir, fs1) ->
       reader_Read (manager_TemplateLocation dir) fs1 = Ok t ->
       Ironman.runValidators i (Ironman.validators i) t = None ->
       index_Index (set_SourceType t SourceTypeURL) (db w) = (Err e, db1) ->
       manager_Uninstall dir fs1 = (Some rollbackErr, fs2) ->
       fst (Ironman.Install i templateLocator w) = Some e)
  /\ (forall templatePath templateID linkPath fs1 e rollbackErr fs2,
       manager_Link templatePath templateID (fs w) = (Ok linkPath, fs1) ->
       reader_Read linkPath fs1 = Err e ->
       manager_Unlink templateID fs1 = (Some rollbackErr, fs2) ->
       fst (Ironman.Link i templatePath templateID w) = Some e)
  /\ (forall templatePath templateID linkPath fs1 t e db1 rollbackErr fs2,
       manager_Link templatePath templateID (fs w) = (Ok linkPath, fs1) ->
       reader_Read linkPath fs1 = Ok t ->
       index_Index (set_SourceType (set_ID t templateID) SourceTypeLink) (db w)
       = (Err e, db1) ->
       manager_Unlink templateID fs1 = (Some rollbackErr, fs2) ->
       fst (Ironman.Link i templatePath templateID w) = Some e).
Proof.
  repeat split.
  - intros loc dir fs1 e rb fs2 Hinst Hread _.
    rewrite (Install_read_failure _ _ _ _ _ _ Hinst Hread). reflexivity.
  - intros loc dir fs1 t e db1 rb fs2 Hinst Hread Hval Hidx _.
    rewrite (Install_index_failure _ _ _ _ _ _ _ _ Hinst Hread Hval Hidx). reflexivity.
  - intros p id linkPath fs1 e rb fs2 Hlink Hread _.
    rewrite (Link_read_failure _ _ _ _ _ _ _ Hlink Hread). reflexivity.
  - intros p id linkPath fs1 t e db1 rb fs2 Hlink Hread Hidx _.
    rewrite (Link_index_failure _ _ _ _ _ _ _ _ _ Hlink Hread Hidx). reflexivity.
Qed.

(** C7.  After a successful [Link] the model handed to the Index, and
    accepted by it, is the one read through the link with its ID
    replaced by the caller's [templateID] and its source type by
    [SourceTypeLink], whatever the declaration says; an Index that keeps
    what it accepts then finds that model under [templateID]. *)
Theorem Link_stores_caller_id_as_link i templatePath templateID w w' :
  Ironman.Link i templatePath templateID w = (None, w') ->
  exists (linkPath : string) (declared : Template) (id' : string),
    let stored := set_SourceType (set_ID declared templateID) SourceTypeLink in
    fst (manager_Link templatePath templateID (fs w)) = Ok linkPath
    /\ reader_Read linkPath (fs w') = Ok declared
    /\ ID stored = templateID
    /\ tSourceType stored = SourceTypeLink
    /\ index_Index stored (db w) = (Ok id', db w')
    /\ log w' = log w ++ [EManagerLink templatePath templateID;
                          EReaderRead linkPath; EIndexIndex stored]
    /\ (Ironman.index_keeps_inserted (DB := DB) ->
        index_FindTemplateByID templateID (db w') = Ok stored).
Proof.
  unfold Ironman.Link. run_calls.
  destruct (manager_Link templatePath templateID (fs w)) as [[linkPath | e] fs1] eqn:Hlink;
    go; [| discriminate].
  destruct (reader_Read linkPath fs1) as [declared | e] eqn:Hread; go.
  2: { destruct (manager_Unlink templateID fs1); go; discriminate. }
  destruct (index_Index (set_SourceType (set_ID declared templateID) SourceTypeLink) (db w))
    as [[id' | e] db1] eqn:Hidx; go.
  2: { destruct (manager_Unlink templateID fs1); go; discriminate. }
  intros Heq. injection Heq as <-. go.
  exists linkPath, declared, id'. cbn zeta.
  repeat split; try reflexivity; try assumption.
  - flat_log. reflexivity.
  - intros Hkeeps. apply (Hkeeps _ _ _ _ Hidx).
Qed.

(** *** Update, and who refreshes the metadata *)

(** Brute force over the results the code inspects, for the statements
    about the calls an operation appends to the log. *)
Ltac by_cases :=
  run_calls; repeat next_case;
  eexists; (split; [flat_log; reflexivity | reflexivity]).

Lemma Update_keeps_index i templateID w :
  db (snd (Ironman.Update i templateID w)) = db w.
Proof.
  unfold Ironman.Update. run_calls. repeat next_case; reflexivity.
Qed.

Lemma Update_emits i templateID :
  emits (fun e => negb (index_write e) && negb (is_reader_read e))
        (Ironman.Update i templateID).
Proof. intros w. unfold Ironman.Update. by_cases. Qed.

Lemma Update_existing i templateID w model :
  index_Exists templateID (db w) = Ok true ->
  index_FindTemplateByID templateID (db w) = Ok model ->
  Ironman.Update i templateID w
  = (fst (manager_Update (DirectoryName model) (fs w)),
     mkWorld (snd (manager_Update (DirectoryName model) (fs w))) (db w)
       (log w ++ [EIndexExists templateID; EIndexFind templateID;
                  EManagerUpdate (DirectoryName model)])).
Proof.
  intros Hex Hfind. unfold Ironman.Update. run_calls.
  known Hex. known Hfind.
  destruct (manager_Update (DirectoryName model) (fs w)) as [[err |] fs'];
    flat_log; reflexivity.
Qed.

Lemma Install_emits i templateLocator :
  emits (fun e => negb (is_index_update e)) (Ironman.Install i templateLocator).
Proof. intros w. unfold Ironman.Install. by_cases. Qed.

Lemma Link_emits i templatePath templateID :
  emits (fun e => negb (is_index_update e)) (Ironman.Link i templatePath templateID).
Proof. intros w. unfold Ironman.Link. by_cases. Qed.

Lemma Uninstall_emits i templateID :
  emits (fun e => negb (is_index_update e)) (Ironman.Uninstall i templateID).
Proof. intros w. unfold Ironman.Uninstall. by_cases. Qed.

Lemma Unlink_emits i templateID :
  emits (fun e => negb (is_index_update e)) (Ironman.Unlink i templateID).
Proof. intros w. unfold Ironman.Unlink. by_cases. Qed.

Lemma List_emits i :
  emits (fun e => negb (is_index_update e)) (Ironman.List i).
Proof. intros w. unfold Ironman.List. by_cases. Qed.

Lemma Generate_refreshes_linked i (context : Ctx) templateID generatorID generationPath
    (values : Values) force w model declared :
  index_Exists templateID (db w) = Ok true ->
  index_FindTemplateByID templateID (db w) = Ok model ->
  tSourceType model = SourceTypeLink ->
  reader_Read (manager_TemplateLocation (DirectoryName model)) (fs w) = Ok declared ->
  exists events : list Event,
    log (snd (Ironman.Generate i context templateID generatorID generationPath values force w))
    = log w ++ [EIndexExists templateID; EIndexFind templateID;
                EReaderRead (manager_TemplateLocation (DirectoryName model));
                EIndexUpdate (set_SourceType (set_ID declared templateID) SourceTypeLink)]
            ++ events.
Proof.
  intros Hex Hfind Hlink Hread.
  unfold Ironman.Generate, Ironman.resolveGenerator, Ironman.refreshLinked,
    Ironman.checkFileTarget, Ironman.checkDirectoryTarget, Ironman.render.
  run_calls. known Hex. known Hfind. rewrite Hlink.
  destruct (decide (SourceTypeLink = SourceTypeLink)) as [_ | Hne]; [| contradiction].
  go. known Hread.
  repeat next_case; eexists; flat_log; reflexivity.
Qed.

(** C6.  [Update] leaves the Index as it is: it calls no operation that
    changes the Index and does not read the template's declaration.
    For a template the Index has, it calls [Exists], [FindTemplateByID]
    and the Source Manager's [Update] on the stored directory name, and
    returns what that returns.  [Generate] is where a linked template's
    declaration is read again and the Index updated with it; none of
    [Install], [Link], [Uninstall], [Unlink], [List] calls the Index's
    [Update]. *)
Theorem Update_never_modifies_index i templateID :
  (forall w, db (snd (Ironman.Update i templateID w)) = db w)
  /\ emits (fun e => negb (index_write e) && negb (is_reader_read e))
           (Ironman.Update i templateID)
  /\ (forall w model,
       index_Exists templateID (db w) = Ok true ->
       index_FindTemplateByID templateID (db w) = Ok model ->
       Ironman.Update i templateID w
       = (fst (manager_Update (DirectoryName model) (fs w)),
          mkWorld (snd (manager_Update (DirectoryName model) (fs w))) (db w)
            (log w ++ [EIndexExists templateID; EIndexFind templateID;
                       EManagerUpdate (DirectoryName model)])))
  /\ (forall (context : Ctx) generatorID generationPath (values : Values) force w
             model declared,
       index_Exists templateID (db w) = Ok true ->
       index_FindTemplateByID templateID (db w) = Ok model ->
       tSourceType model = SourceTypeLink ->
       reader_Read (manager_TemplateLocation (DirectoryName model)) (fs w) = Ok declared ->
       exists events : list Event,
         log (snd (Ironman.Generate i context templateID generatorID generationPath
                     values force w))
         = log w ++ [EIndexExists templateID; EIndexFind templateID;
                     EReaderRead (manager_TemplateLocation (DirectoryName model));
                     EIndexUpdate
                       (set_SourceType (set_ID declared templateID) SourceTypeLink)]
                 ++ events)
  /\ (forall templateLocator templatePath otherID,
       emits (fun e => negb (is_index_update e)) (Ironman.Install i templateLocator)
       /\ emits (fun e => negb (is_index_update e)) (Ironman.Link i templatePath otherID)
       /\ emits (fun e => negb (is_index_update e)) (Ironman.Uninstall i otherID)
       /\ emits (fun e => negb (is_index_update e)) (Ironman.Unlink i otherID)
       /\ emits (fun e => negb (is_index_update e)) (Ironman.List i)).
Proof.
  split; [apply Update_keeps_index |].
  split; [apply Update_emits |].
  split; [intros w model; apply Update_existing |].
  split; [intros; eapply Generate_refreshes_linked; eassumption |].
  intros loc p id. repeat split.
  - apply Install_emits.
  - apply Link_emits.
  - apply Uninstall_emits.
  - apply Unlink_emits.
  - apply List_emits.
Qed.

(** *** Generate: the checks made before the rendering walk *)

(** Finding the template, its generator and the target path writes
    nothing on the filesystem. *)
Lemma resolveGenerator_keeps_fs i templateID generatorID generationPath w :
  fs (snd (Ironman.resolveGenerator i templateID generatorID generationPath w)) = fs w.
Proof.
  unfold Ironman.resolveGenerator, Ironman.refreshLinked. run_calls.
  repeat next_case; reflexivity.
Qed.

Lemma resolveGenerator_emits i templateID generatorID generationPath :
  emits (fun e => negb (fs_write e))
        (Ironman.resolveGenerator i templateID generatorID generationPath).
Proof.
  intros w. unfold Ironman.resolveGenerator, Ironman.refreshLinked. by_cases.
Qed.

(** [Generate] once the generator is resolved: the check of the target,
    then the rendering walk. *)
Lemma Generate_resolved i (context : Ctx) templateID generatorID generationPath
    (values : Values) force w tm g abs w1 :
  Ironman.resolveGenerator i templateID generatorID generationPath w = (Ok (tm, g, abs), w1) ->
  Ironman.Generate i context templateID generatorID generationPath values force w
  = (let (err, w2) :=
       (if decide (TType g = GeneratorTypeFile)
        then Ironman.checkFileTarget g generationPath abs force
        else Ironman.checkDirectoryTarget abs force) w1 in
     match err with
     | Some err => (Some err, w2)
     | None => Ironman.render i context tm g abs values w2
     end).
Proof.
  intros Hres. unfold Ironman.Generate, bind at 1. rewrite Hres. unfold bind.
  destruct ((if decide (TType g = GeneratorTypeFile)
             then Ironman.checkFileTarget g generationPath abs force
             else Ironman.checkDirectoryTarget abs force) w1) as [[err |] w2];
    reflexivity.
Qed.

(** C4.  For a File generator, with [baseDir] the parent of the absolute
    target and [filePath] the join of [baseDir], the generator's
    [FileGenerationRelativePath] and the base name of the target:
    [Generate] fails with the missing-directory error when [baseDir]
    does not exist; it fails with the file-exists error when [filePath]
    exists and [force] is false; otherwise it goes on to the rendering
    walk.  Up to there nothing has been written: the filesystem is the
    initial one and no call made so far is a write. *)
Theorem file_target_checks i (context : Ctx) templateID generatorID generationPath
    (values : Values) force w tm g abs w1 :
  Ironman.resolveGenerator i templateID generatorID generationPath w = (Ok (tm, g, abs), w1) ->
  TType g = GeneratorTypeFile ->
  let baseDir := filepath_Dir abs in
  let filePath :=
    filepath_Join [baseDir; FileGenerationRelativePath (gFileTypeOptions g);
                   filepath_Base abs] in
  let run := Ironman.Generate i context templateID generatorID generationPath values force in
  (os_IsNotExist (os_Stat baseDir (fs w)) = true ->
   run w
   = (Some (errors_Errorf
        ("directory " +:+ filepath_Dir generationPath +:+ " does not exists")),
      mkWorld (fs w) (db w1) (log w1 ++ [EOsStat baseDir])))
  /\ (os_IsNotExist (os_Stat baseDir (fs w)) = false ->
      os_Stat filePath (fs w) = None ->
      force = false ->
      run w
      = (Some (errors_Errorf ("file already exists " +:+ filePath +:+ " ")),
         mkWorld (fs w) (db w1) (log w1 ++ [EOsStat baseDir; EOsStat filePath])))
  /\ (os_IsNotExist (os_Stat baseDir (fs w)) = false ->
      os_Stat filePath (fs w) <> None \/ force = true ->
      run w
      = Ironman.render i context tm g abs values
          (mkWorld (fs w) (db w1) (log w1 ++ [EOsStat baseDir; EOsStat filePath])))
  /\ (exists events : list Event,
        log w1 = log w ++ events /\ forallb (fun e => negb (fs_write e)) events = true).
Proof.
  intros Hres Hfile baseDir filePath run.
  assert (Hfs : fs w1 = fs w).
  { pose proof (resolveGenerator_keeps_fs i templateID generatorID generationPath w) as H0.
    rewrite Hres in H0. exact H0. }
  assert (Hrun : run w
    = (let (err, w2) := Ironman.checkFileTarget g generationPath abs force w1 in
       match err with
       | Some err => (Some err, w2)
       | None => Ironman.render i context tm g abs values w2
       end)).
  { unfold run. rewrite (Generate_resolved _ _ _ _ _ _ _ _ _ _ _ _ Hres).
    destruct (decide (TType g = GeneratorTypeFile)); [reflexivity | contradiction]. }
  rewrite Hrun. unfold Ironman.checkFileTarget. run_calls. rewrite Hfs.
  fold baseDir. fold filePath.
  repeat split.
  - intros Hmissing. rewrite Hmissing. reflexivity.
  - intros Hthere Hexists ->. rewrite Hthere. go. rewrite Hexists.
    cbn. flat_log. reflexivity.
  - intros Hthere Hfree. rewrite Hthere. go.
    assert (Hpass : bool_decide (os_Stat filePath (fs w) = None) && negb force = false).
    { destruct Hfree as [Hbusy | ->].
      - rewrite bool_decide_eq_false_2 by exact Hbusy. reflexivity.
      - apply andb_false_r. }
    rewrite Hpass. flat_log. reflexivity.
  - pose proof (resolveGenerator_emits i templateID generatorID generationPath w) as H0.
    rewrite Hres in H0. exact H0.
Qed.

Lemma Generate_directory i (context : Ctx) templateID generatorID generationPath
    (values : Values) force w tm g abs w1 :
  Ironman.resolveGenerator i templateID generatorID generationPath w = (Ok (tm, g, abs), w1) ->
  TType g = GeneratorTypeDirectory ->
  fs w1 = fs w
  /\ Ironman.Generate i context templateID generatorID generationPath values force w
     = (let (err, w2) := Ironman.checkDirectoryTarget abs force w1 in
        match err with
        | Some err => (Some err, w2)
        | None => Ironman.render i context tm g abs values w2
        end).
Proof.
  intros Hres Hdir. split.
  - pose proof (resolveGenerator_keeps_fs i templateID generatorID generationPath w) as H0.
    rewrite Hres in H0. exact H0.
  - rewrite (Generate_resolved _ _ _ _ _ _ _ _ _ _ _ _ Hres).
    destruct (decide (TType g = GeneratorTypeFile)) as [Hfile | _]; [| reflexivity].
    rewrite Hdir in Hfile. discriminate Hfile.
Qed.

(** An already-exists error is not a permission error. *)
Lemma IsExist_not_IsPermission (err : option error) :
  os_IsExist err = true -> os_IsPermission err = false.
Proof.
  destruct err as [[? | ? ? | ? ? [] |] |]; cbn; intros Hexist;
    first [reflexivity | discriminate Hexist].
Qed.

Lemma render_result i (context : Ctx) tm g abs (values : Values) w :
  fst (Ironman.render i context tm g abs values w)
  = fst (Ironman.engine i context
           (filepath_Join [Ironman.home i; Ironman.templatesDirectory; DirectoryName tm;
                           Ironman.generatorsPath; gDirectoryName g])
           abs (Ironman.mkGeneratorData tm g values) (fs w)).
Proof.
  unfold Ironman.render. run_calls.
  destruct (Ironman.engine i context _ abs _ (fs w)) as [[err |] fs']; reflexivity.
Qed.

(** C5.  For a Directory generator [Generate] first creates the target
    with [os.Mkdir], and on success goes on to the rendering walk.  When
    the target already exists (and can be listed): with [force], or
    with the directory empty, [Generate] goes on to the rendering walk;
    otherwise it fails with the not-empty error, the filesystem being
    the initial one and the engine never called.  So, the rendering
    walk itself succeeding, [Generate] succeeds exactly when [force] is
    true or the directory is empty. *)
Theorem directory_target_policy i (context : Ctx) templateID generatorID generationPath
    (values : Values) force w tm g abs w1 :
  Ironman.resolveGenerator i templateID generatorID generationPath w = (Ok (tm, g, abs), w1) ->
  TType g = GeneratorTypeDirectory ->
  let run := Ironman.Generate i context templateID generatorID generationPath values force in
  let created fs' := mkWorld fs' (db w1) (log w1 ++ [EOsMkdir abs]) in
  let listed := mkWorld (fs w) (db w1) (log w1 ++ [EOsMkdir abs; EIsDirEmpty abs]) in
  (forall fs',
     os_Mkdir abs (fs w) = inr fs' ->
     run w = Ironman.render i context tm g abs values (created fs'))
  /\ (forall err empty,
       os_Mkdir abs (fs w) = inl err ->
       os_IsExist (Some err) = true ->
       Ironman.isDirEmpty abs (fs w) = (empty, None) ->
       run w
       = (if force then Ironman.render i context tm g abs values (created (fs w))
          else if empty then Ironman.render i context tm g abs values listed
          else (Some (errors_Errorf ("Generation path is not empty " +:+ abs)), listed)))
  /\ (forall err empty,
       os_Mkdir abs (fs w) = inl err ->
       os_IsExist (Some err) = true ->
       Ironman.isDirEmpty abs (fs w) = (empty, None) ->
       fst (Ironman.engine i context
              (filepath_Join [Ironman.home i; Ironman.templatesDirectory; DirectoryName tm;
                              Ironman.generatorsPath; gDirectoryName g])
              abs (Ironman.mkGeneratorData tm g values) (fs w)) = None ->
       (fst (run w) = None <-> force || empty = true)).
Proof.
  intros Hres Hdir run created listed.
  destruct (Generate_directory i context _ _ _ values force _ _ _ _ _ Hres Hdir)
    as [Hfs Hrun].
  assert (Hexists : forall err empty,
    os_Mkdir abs (fs w) = inl err ->
    os_IsExist (Some err) = true ->
    Ironman.isDirEmpty abs (fs w) = (empty, None) ->
    run w
    = (if force then Ironman.render i context tm g abs values (created (fs w))
       else if empty then Ironman.render i context tm g abs values listed
       else (Some (errors_Errorf ("Generation path is not empty " +:+ abs)), listed))).
  { intros err empty Hmk Hex Hempty. unfold run. rewrite Hrun.
    unfold Ironman.checkDirectoryTarget. run_calls. rewrite Hfs, Hmk. go.
    rewrite (IsExist_not_IsPermission _ Hex), Hex.
    destruct force; cbn [negb andb].
    - reflexivity.
    - go. rewrite Hempty. destruct empty; flat_log; reflexivity. }
  split; [| split].
  - intros fs' Hmk. unfold run. rewrite Hrun.
    unfold Ironman.checkDirectoryTarget. run_calls. rewrite Hfs, Hmk. reflexivity.
  - exact Hexists.
  - intros err empty Hmk Hex Hempty Hwalk.
    rewrite (Hexists err empty Hmk Hex Hempty).
    destruct force; [| destruct empty]; cbn [orb].
    + rewrite render_result. cbn [fs created]. rewrite Hwalk. split; reflexivity.
    + rewrite render_result. cbn [fs listed]. rewrite Hwalk. split; reflexivity.
    + cbn [fst]. split; discriminate.
Qed.

(** C10.  For a Directory generator, when [os.Mkdir] fails with an error
    that is neither a permission error nor an already-exists error,
    [Generate] does not return it: what [Generate] does and returns is
    the rendering walk, started on the unchanged filesystem, as after a
    successful creation. *)
Theorem Mkdir_other_failure_ignored i (context : Ctx) templateID generatorID generationPath
    (values : Values) force w tm g abs w1 err :
  Ironman.resolveGenerator i templateID generatorID generationPath w = (Ok (tm, g, abs), w1) ->
  TType g = GeneratorTypeDirectory ->
  os_Mkdir abs (fs w) = inl err ->
  os_IsPermission (Some err) = false ->
  os_IsExist (Some err) = false ->
  Ironman.Generate i context templateID generatorID generationPath values force w
  = Ironman.render i context tm g abs values
      (mkWorld (fs w) (db w1) (log w1 ++ [EOsMkdir abs])).
Proof.
  intros Hres Hdir Hmk Hperm Hex.
  destruct (Generate_directory i context _ _ _ values force _ _ _ _ _ Hres Hdir)
    as [Hfs Hrun].
  rewrite Hrun. unfold Ironman.checkDirectoryTarget. run_calls.
  rewrite Hfs, Hmk. go. rewrite Hperm, Hex. reflexivity.
Qed.

End LifecycleProperties.


(** ** The base manager *)
Section BaseManagerProperties.
Context {FS DB : Type}.
Context `{!OS FS, !FilePath}.

Implicit Types (b : BaseManager.BaseManager) (w : World FS DB).

(** C9.  With the empty string as [templateID], each of [Uninstall],
    [IsInstalled], [Link] and [Unlink] returns the empty-ID error and
    the world is untouched: no call on the filesystem is made. *)
Theorem empty_templateID_rejected b templatePath w :
  BaseManager.Uninstall b EmptyString w
  = (Some (errors_Errorf "a templateID cannot be empty"), w)
  /\ BaseManager.IsInstalled b EmptyString w
     = ((false, Some (errors_Errorf "a templateID cannot be empty")), w)
  /\ BaseManager.Link b templatePath EmptyString w
     = (Some (errors_Errorf "a templateID cannot be empty"), w)
  /\ BaseManager.Unlink b EmptyString w
     = (Some (errors_Errorf "a templateID cannot be empty"), w).
Proof. repeat split. Qed.

(** C8.  The base manager's [Find], [Install] and [Update] can be
    called, and whatever their argument and the state they panic with
    "not implemented" without doing anything else. *)
Theorem base_manager_operations_panic b (arg : string) w :
  BaseManager.Find b arg w = (Panic "not implemented", w)
  /\ BaseManager.Install b arg w = (Panic "not implemented", w)
  /\ BaseManager.Update b arg w = (Panic "not implemented", w).
Proof. repeat split. Qed.

End BaseManagerProperties.

(** The guard lets every other ID through. *)
Lemma validateTemplateID_nil (templateID : string) :
  BaseManager.validateTemplateID templateID = None <-> templateID <> EmptyString.
Proof.
  unfold BaseManager.validateTemplateID.
  destruct (decide (templateID = EmptyString)) as [-> | Hne]; split; intros H;
    try reflexivity; try discriminate H; try exact Hne.
  contradiction H. reflexivity.
Qed.

(** The base manager at work: linking a directory makes two calls on
    the filesystem and leaves a symbolic link under the templates root;
    unlinking an ID that is not there reports the error of [os.Stat],
    printed into the message where the ID was meant. *)
Example base_Link_runs :
  let r := BaseManager.Link Sim.base "/src/mine" "custom" Sim.world0 in
  fst r = None
  /\ log (snd r)
     = [EOsStat "/src/mine";
        EOsSymlink "/src/mine" "/home/tony/.ironman/templates/custom"]
  /\ Sim.nodes (fs (snd r)) !! "/home/tony/.ironman/templates/custom"
     = Some (Sim.NLink "/src/mine").
Proof. cbv zeta. repeat split; by_running. Qed.

Example base_Unlink_missing :
  fst (BaseManager.Unlink Sim.base "custom" Sim.world0)
  = Some (Wrap (PathError "stat" "/home/tony/.ironman/templates/custom" ENOENT)
            "Failed to remove symlink for template ID stat /home/tony/.ironman/templates/custom: no such file or directory").
Proof. by_running. Qed.


(** ** The theorems at work on the executable environment *)

(** A validator that rejects: the error comes back and the installed
    directory is still there. *)
Lemma Install_validation_failure_not_rolled_back_witness :
  manager_Install Sim.locator (fs Sim.world0) = (Ok "base", Sim.fs1)
  /\ reader_Read (manager_TemplateLocation "base") Sim.fs1 = Ok Sim.declared
  /\ Ironman.runValidators (Sim.ironman [Sim.reject])
       (Ironman.validators (Sim.ironman [Sim.reject])) Sim.declared
     = Some (New EmptyString)
  /\ Ironman.Install (Sim.ironman [Sim.reject]) Sim.locator Sim.world0
     = (Some (New EmptyString),
        mkWorld Sim.fs1 (db Sim.world0)
          (log Sim.world0 ++ [EManagerInstall Sim.locator;
                              EReaderRead (manager_TemplateLocation "base")]))
  /\ Sim.exists_ (Sim.TemplateLocation "base") Sim.fs1 = true.
Proof.
  assert (H1 : manager_Install Sim.locator (fs Sim.world0) = (Ok "base", Sim.fs1))
    by by_running.
  assert (H2 : reader_Read (manager_TemplateLocation "base") Sim.fs1 = Ok Sim.declared)
    by by_running.
  assert (H3 : Ironman.runValidators (Sim.ironman [Sim.reject])
                 (Ironman.validators (Sim.ironman [Sim.reject])) Sim.declared
               = Some (New EmptyString)) by by_running.
  split; [exact H1 | split; [exact H2 | split; [exact H3 | split]]].
  - exact (Install_validation_failure_not_rolled_back
             (Sim.ironman [Sim.reject]) Sim.locator Sim.world0 "base" Sim.fs1
             Sim.declared (New EmptyString) H1 H2 H3).
  - by_running.
Defined.

(** C2 as the spec words it fails: here the model cannot be read, the
    rollback [Uninstall] fails with a permission error, and the error
    [Install] returns does not contain the rollback's. *)
Lemma compensation_error_not_reported :
  ~ (forall (i : Sim.SimIronman) (templateLocator : string)
            (w : World Sim.SimFS Sim.SimDB) dir fs1 e rollbackErr fs2,
       manager_Install templateLocator (fs w) = (Ok dir, fs1) ->
       reader_Read (manager_TemplateLocation dir) fs1 = Err e ->
       manager_Uninstall dir fs1 = (Some rollbackErr, fs2) ->
       exists err,
         fst (Ironman.Install i templateLocator w) = Some err
         /\ mentions err rollbackErr = true).
Proof.
  intros Hclaim.
  pose (w := Sim.lock_world (Sim.TemplateLocation "broken") Sim.world0).
  pose (fsm := snd (manager_Install Sim.broken_locator (fs w))).
  destruct (Hclaim (Sim.ironman []) Sim.broken_locator w "broken" fsm
              (New "failed to decode the template declaration under /home/tony/.ironman/templates/broken")
              (PathError "unlinkat" (Sim.TemplateLocation "broken") EACCES) fsm)
    as (err & Hret & Hmentions); try by_running.
  vm_compute in Hret. injection Hret as <-.
  vm_compute in Hmentions. discriminate Hmentions.
Qed.

(** The same run, read through the theorem: the model-read error alone
    is returned. *)
Lemma compensation_failure_discarded_witness :
  let w := Sim.lock_world (Sim.TemplateLocation "broken") Sim.world0 in
  let fsm := snd (manager_Install Sim.broken_locator (fs w)) in
  let e := New "failed to decode the template declaration under /home/tony/.ironman/templates/broken" in
  manager_Install Sim.broken_locator (fs w) = (Ok "broken", fsm)
  /\ reader_Read (manager_TemplateLocation "broken") fsm = Err e
  /\ manager_Uninstall "broken" fsm
     = (Some (PathError "unlinkat" (Sim.TemplateLocation "broken") EACCES), fsm)
  /\ fst (Ironman.Install (Sim.ironman []) Sim.broken_locator w)
     = Some (errors_Wrap e "failed to read template model").
Proof.
  intros w fsm e.
  assert (H1 : manager_Install Sim.broken_locator (fs w) = (Ok "broken", fsm))
    by by_running.
  assert (H2 : reader_Read (manager_TemplateLocation "broken") fsm = Err e)
    by by_running.
  assert (H3 : manager_Uninstall "broken" fsm
               = (Some (PathError "unlinkat" (Sim.TemplateLocation "broken") EACCES), fsm))
    by by_running.
  split; [exact H1 | split; [exact H2 | split; [exact H3 |]]].
  exact (proj1 (compensation_failure_discarded (Sim.ironman []) w)
           Sim.broken_locator "broken" fsm e _ fsm H1 H2 H3).
Defined.

(** An ID that was never installed; an installed one whose directory
    cannot be removed; an installed one that is removed. *)
Lemma Uninstall_contract_witness :
  let i := Sim.ironman [] in
  let denied := Sim.lock_world (Sim.TemplateLocation "base") Sim.world1 in
  (index_Exists "ghost" (db Sim.world0) = Ok false
   /\ Ironman.Uninstall i "ghost" Sim.world0
      = (Some (New "template ghost is not installed"),
         mkWorld (fs Sim.world0) (db Sim.world0) [EIndexExists "ghost"]))
  /\ (index_Exists "base" (db denied) = Ok true
      /\ fst (Ironman.Uninstall i "base" denied)
         = Some (PathError "unlinkat" (Sim.TemplateLocation "base") EACCES)
      /\ db (snd (Ironman.Uninstall i "base" denied)) = db denied)
  /\ (index_Exists "base" (db Sim.world1) = Ok true
      /\ fst (Ironman.Uninstall i "base" Sim.world1) = None
      /\ index_Exists "base" (db (snd (Ironman.Uninstall i "base" Sim.world1))) = Ok false
      /\ Sim.exists_ (Sim.TemplateLocation "base")
           (fs (snd (Ironman.Uninstall i "base" Sim.world1))) = false).
Proof.
  intros i denied.
  destruct (Uninstall_contract i "ghost" Sim.world0) as (Habsent & _ & _).
  destruct (Uninstall_contract i "base" denied) as (_ & Hfails & _).
  destruct (Uninstall_contract i "base" Sim.world1) as (_ & _ & Hremoves).
  assert (Hmodel : index_FindTemplateByID "base" (db Sim.world1)
                   = Ok (set_SourceType Sim.declared SourceTypeURL)) by by_running.
  split; [| split].
  - split; [by_running |]. apply Habsent. by_running.
  - split; [by_running |].
    rewrite (Hfails (set_SourceType Sim.declared SourceTypeURL)
               (PathError "unlinkat" (Sim.TemplateLocation "base") EACCES)
               (fs denied)); [split; reflexivity | by_running ..].
  - split; [by_running |].
    rewrite (Hremoves (set_SourceType Sim.declared SourceTypeURL)
               (snd (manager_Uninstall "base" (fs Sim.world1))));
      [repeat split; by_running | by_running ..].
Defined.

(** The in-memory Index finds what it accepted. *)
Lemma sim_index_keeps_inserted : Ironman.index_keeps_inserted (DB := Sim.SimDB).
Proof.
  intros t d d' id'. unfold index_Index, index_FindTemplateByID, Sim.sim_index.
  unfold Sim.SimDB in *.
  destruct (d !! ID t) eqn:Hfree; intros Heq; [discriminate Heq |].
  injection Heq as _ <-. rewrite lookup_insert_eq. reflexivity.
Qed.

(** A template declaring the ID [base] and no link, linked as [custom]. *)
Lemma Link_stores_caller_id_as_link_witness :
  let i := Sim.ironman [] in
  Ironman.Link i "/src/mine" "custom" Sim.world0
  = (None, snd (Ironman.Link i "/src/mine" "custom" Sim.world0))
  /\ ID Sim.declared = "base"
  /\ tSourceType Sim.declared = SourceTypeURL
  /\ index_FindTemplateByID "custom"
       (db (snd (Ironman.Link i "/src/mine" "custom" Sim.world0)))
     = Ok (mkTemplate "custom" "base" SourceTypeLink (Generators Sim.declared)).
Proof.
  intros i.
  assert (Hlink : Ironman.Link i "/src/mine" "custom" Sim.world0
                  = (None, snd (Ironman.Link i "/src/mine" "custom" Sim.world0)))
    by by_running.
  split; [exact Hlink | split; [reflexivity | split; [reflexivity |]]].
  destruct (Link_stores_caller_id_as_link i "/src/mine" "custom" Sim.world0 _ Hlink)
    as (linkPath & model & id' & Hpath & Hread & _ & _ & _ & _ & Hfound).
  rewrite (Hfound sim_index_keeps_inserted).
  assert (Hmodel : model = Sim.declared).
  { vm_compute in Hpath. injection Hpath as <-.
    vm_compute in Hread. injection Hread as <-. reflexivity. }
  rewrite Hmodel. reflexivity.
Defined.

(** [Update] of the installed template. *)
Lemma Update_never_modifies_index_witness :
  let i := Sim.ironman [] in
  index_Exists "base" (db Sim.world1) = Ok true
  /\ index_FindTemplateByID "base" (db Sim.world1)
     = Ok (set_SourceType Sim.declared SourceTypeURL)
  /\ Ironman.Update i "base" Sim.world1
     = (None,
        mkWorld (fs Sim.world1) (db Sim.world1)
          (log Sim.world1 ++ [EIndexExists "base"; EIndexFind "base";
                              EManagerUpdate "base"])).
Proof.
  intros i.
  assert (H1 : index_Exists "base" (db Sim.world1) = Ok true) by by_running.
  assert (H2 : index_FindTemplateByID "base" (db Sim.world1)
               = Ok (set_SourceType Sim.declared SourceTypeURL)) by by_running.
  split; [exact H1 | split; [exact H2 |]].
  destruct (Update_never_modifies_index i "base") as (_ & _ & Hexisting & _).
  rewrite (Hexisting Sim.world1 _ H1 H2). by_running.
Defined.

(** A File generator aimed below a missing directory, then at a file
    that is already there. *)
Lemma file_target_checks_witness :
  let i := Sim.ironman [Sim.accept] in
  let resolved path := snd (Ironman.resolveGenerator i "base" "controller" path Sim.world1) in
  (os_IsNotExist (os_Stat "/nowhere" (fs Sim.world1)) = true
   /\ Ironman.Generate i tt "base" "controller" "/nowhere/user" [] false Sim.world1
      = (Some (New "directory /nowhere does not exists"),
         mkWorld (fs Sim.world1) (db Sim.world1)
           (log (resolved "/nowhere/user") ++ [EOsStat "/nowhere"])))
  /\ (os_IsNotExist (os_Stat "/work" (fs Sim.world1)) = false
      /\ os_Stat "/work/controllers/user" (fs Sim.world1) = None
      /\ Ironman.Generate i tt "base" "controller" "/work/user" [] false Sim.world1
         = (Some (New "file already exists /work/controllers/user "),
            mkWorld (fs Sim.world1) (db Sim.world1)
              (log (resolved "/work/user")
               ++ [EOsStat "/work"; EOsStat "/work/controllers/user"]))).
Proof.
  intros i resolved.
  pose (tm := set_SourceType Sim.declared SourceTypeURL).
  assert (Hres : forall path abs, Sim.Abs path = Ok abs ->
    Ironman.resolveGenerator i "base" "controller" path Sim.world1
    = (Ok (tm, Sim.gen_controller, abs), resolved path)).
  { intros path abs Habs. unfold resolved, Ironman.resolveGenerator. run_calls.
    change (filepath_Abs path) with (Sim.Abs path). rewrite Habs.
    vm_compute. reflexivity. }
  split.
  - split; [by_running |].
    pose proof (file_target_checks i tt "base" "controller" "/nowhere/user" [] false
                  Sim.world1 tm Sim.gen_controller "/nowhere/user" _
                  (Hres "/nowhere/user" "/nowhere/user" eq_refl) eq_refl) as H.
    cbv zeta in H. destruct H as (Hmissing & _).
    rewrite Hmissing; [by_running | by_running].
  - split; [by_running | split; [by_running |]].
    pose proof (file_target_checks i tt "base" "controller" "/work/user" [] false
                  Sim.world1 tm Sim.gen_controller "/work/user" _
                  (Hres "/work/user" "/work/user" eq_refl) eq_refl) as H.
    cbv zeta in H. destruct H as (_ & Hconflict & _).
    rewrite Hconflict; [by_running | by_running ..].
Defined.

(** The Directory generator [app] of the installed template resolves
    for any target. *)
Lemma resolve_app (path abs : string) :
  Sim.Abs path = Ok abs ->
  Ironman.resolveGenerator (Sim.ironman [Sim.accept]) "base" "app" path Sim.world1
  = (Ok (set_SourceType Sim.declared SourceTypeURL, Sim.gen_app, abs),
     snd (Ironman.resolveGenerator (Sim.ironman [Sim.accept]) "base" "app" path Sim.world1)).
Proof.
  intros Habs. unfold Ironman.resolveGenerator. run_calls.
  change (filepath_Abs path) with (Sim.Abs path). rewrite Habs.
  vm_compute. reflexivity.
Qed.

(** A Directory generator aimed at a directory with a file in it, without
    and with [force], then at an empty directory. *)
Lemma directory_target_policy_witness :
  let i := Sim.ironman [Sim.accept] in
  let run path force := Ironman.Generate i tt "base" "app" path [] force Sim.world1 in
  os_Mkdir "/work/full" (fs Sim.world1) = inl (PathError "mkdir" "/work/full" EEXIST)
  /\ Ironman.isDirEmpty "/work/full" (fs Sim.world1) = (false, None)
  /\ fst (run "/work/full" false) = Some (New "Generation path is not empty /work/full")
  /\ fs (snd (run "/work/full" false)) = fs Sim.world1
  /\ fst (run "/work/full" true) = None
  /\ Ironman.isDirEmpty "/work/empty" (fs Sim.world1) = (true, None)
  /\ fst (run "/work/empty" false) = None.
Proof.
  intros i run.
  pose (tm := set_SourceType Sim.declared SourceTypeURL).
  assert (Hfull : os_Mkdir "/work/full" (fs Sim.world1)
                  = inl (PathError "mkdir" "/work/full" EEXIST)) by by_running.
  assert (Hlist : Ironman.isDirEmpty "/work/full" (fs Sim.world1) = (false, None))
    by by_running.
  assert (Hempty : os_Mkdir "/work/empty" (fs Sim.world1)
                   = inl (PathError "mkdir" "/work/empty" EEXIST)) by by_running.
  assert (Hlist' : Ironman.isDirEmpty "/work/empty" (fs Sim.world1) = (true, None))
    by by_running.
  pose proof (fun force =>
    directory_target_policy i tt "base" "app" "/work/full" [] force Sim.world1
      tm Sim.gen_app "/work/full" _ (resolve_app "/work/full" "/work/full" eq_refl) eq_refl)
    as Hpolicy.
  pose proof (directory_target_policy i tt "base" "app" "/work/empty" [] false Sim.world1
      tm Sim.gen_app "/work/empty" _ (resolve_app "/work/empty" "/work/empty" eq_refl) eq_refl)
    as Hpolicy'.
  cbv zeta in Hpolicy, Hpolicy'.
  split; [exact Hfull | split; [exact Hlist |]].
  destruct (Hpolicy false) as (_ & Hexists & _).
  destruct (Hpolicy true) as (_ & _ & Hiff).
  destruct Hpolicy' as (_ & _ & Hiff').
  split; [| split; [| split; [| split]]].
  - unfold run. rewrite (Hexists _ _ Hfull eq_refl Hlist). reflexivity.
  - unfold run. rewrite (Hexists _ _ Hfull eq_refl Hlist). reflexivity.
  - unfold run. apply (Hiff _ _ Hfull eq_refl Hlist); by_running.
  - exact Hlist'.
  - unfold run. apply (Hiff' _ _ Hempty eq_refl Hlist'); by_running.
Defined.

(** A Directory generator aimed below a missing directory: [os.Mkdir]
    fails with ENOENT and the error returned is the engine's. *)
Lemma Mkdir_other_failure_ignored_witness :
  let i := Sim.ironman [Sim.accept] in
  os_Mkdir "/nowhere/x/y" (fs Sim.world1) = inl (PathError "mkdir" "/nowhere/x/y" ENOENT)
  /\ os_IsPermission (Some (PathError "mkdir" "/nowhere/x/y" ENOENT)) = false
  /\ os_IsExist (Some (PathError "mkdir" "/nowhere/x/y" ENOENT)) = false
  /\ Ironman.Generate i tt "base" "app" "/nowhere/x/y" [] false Sim.world1
     = Ironman.render i tt (set_SourceType Sim.declared SourceTypeURL) Sim.gen_app
         "/nowhere/x/y" []
         (mkWorld (fs Sim.world1) (db Sim.world1)
            (log Sim.world1 ++ [EIndexExists "base"; EIndexFind "base";
                                EOsMkdir "/nowhere/x/y"]))
  /\ fst (Ironman.Generate i tt "base" "app" "/nowhere/x/y" [] false Sim.world1)
     = Some (PathError "open" "/nowhere/x/y" ENOENT).
Proof.
  intros i.
  assert (Hmk : os_Mkdir "/nowhere/x/y" (fs Sim.world1)
                = inl (PathError "mkdir" "/nowhere/x/y" ENOENT)) by by_running.
  pose proof (Mkdir_other_failure_ignored i tt "base" "app" "/nowhere/x/y" [] false
                Sim.world1 (set_SourceType Sim.declared SourceTypeURL) Sim.gen_app
                "/nowhere/x/y" _ _
                (resolve_app "/nowhere/x/y" "/nowhere/x/y" eq_refl) eq_refl Hmk
                eq_refl eq_refl) as Hgo.
  split; [exact Hmk | split; [reflexivity | split; [reflexivity | split]]].
  - rewrite Hgo. by_running.
  - rewrite Hgo. by_running.
Defined.


(** * Further properties of the facade *)
Section FacadeProperties.
Context {FS DB Payload Values Ctx : Type}.
Context `{!Manager FS, !Reader FS, !Index DB, !OS FS, !FilePath}.

Implicit Types (i : @Ironman.Ironman FS Payload Values Ctx) (w : World FS DB).
Implicit Types (vs : list (@Ironman.Validator Payload)).

(** *** The validators *)

Lemma runValidators_None_Forall i vs t :
  Ironman.runValidators i vs t = None <-> Forall (Ironman.accepts t) vs.
Proof.
  induction vs as [| v vs IH]; cbn [Ironman.runValidators].
  - split; [constructor | reflexivity].
  - destruct (v t) as [[[] payload] [err |]] eqn:Hv; cbn beta iota.
    + split; [discriminate |].
      intros Hall. inversion Hall as [| ? ? [p Hp] _]; subst. congruence.
    + rewrite IH. split.
      * intros Hall. constructor; [exists payload; exact Hv | exact Hall].
      * intros Hall. inversion Hall; assumption.
    + split; [discriminate |].
      intros Hall. inversion Hall as [| ? ? [p Hp] _]; subst. congruence.
    + split.
      * destruct (Ironman.validationTempl i payload); discriminate.
      * intros Hall. inversion Hall as [| ? ? [p Hp] _]; subst. congruence.
Qed.

(** X1.  The validators let a model through exactly when every one of
    them accepts it: valid, and no error. *)
Theorem runValidators_None_iff i vs t :
  Ironman.runValidators i vs t = None <-> Forall (Ironman.accepts t) vs.
Proof. apply runValidators_None_Forall. Qed.


(** *** Install *)

(** X3.  When [Install] succeeds it has made three calls and no other:
    the Source Manager's [Install], the read of the model under the
    location of the directory it returned, and the Index's insert of
    that model with the source type set to URL (the ID is the declared
    one).  Every validator accepted the model. *)
Theorem Install_success_stores_URL i templateLocator w w' :
  Ironman.Install i templateLocator w = (None, w') ->
  exists (dir : string) (t : Template) (id' : string),
    manager_Install templateLocator (fs w) = (Ok dir, fs w')
    /\ reader_Read (manager_TemplateLocation dir) (fs w') = Ok t
    /\ Forall (Ironman.accepts t) (Ironman.validators i)
    /\ index_Index (set_SourceType t SourceTypeURL) (db w) = (Ok id', db w')
    /\ log w' = log w ++ [EManagerInstall templateLocator;
                          EReaderRead (manager_TemplateLocation dir);
                          EIndexIndex (set_SourceType t SourceTypeURL)].
Proof.
  unfold Ironman.Install. run_calls.
  destruct (manager_Install templateLocator (fs w)) as [[dir | e] fs1] eqn:Hinst;
    go; [| discriminate].
  destruct (reader_Read (manager_TemplateLocation dir) fs1) as [t | e] eqn:Hread; go.
  2: { destruct (manager_Uninstall dir fs1); go; discriminate. }
  destruct (Ironman.runValidators i (Ironman.validators i) t) eqn:Hval; go;
    [discriminate |].
  destruct (index_Index (set_SourceType t SourceTypeURL) (db w))
    as [[id' | e] db1] eqn:Hidx; go.
  2: { destruct (manager_Uninstall dir fs1); go; discriminate. }
  intros Heq. injection Heq as <-. go.
  exists dir, t, id'. repeat split; try assumption.
  - apply (proj1 (runValidators_None_Forall i _ t)). exact Hval.
  - flat_log. reflexivity.
Qed.

(** X4.  When [Install] fails after the Source Manager has made the
    directory, either a validator turned the model down, and then the
    filesystem is left as the Source Manager made it; or the last call
    [Install] made is the Source Manager's [Uninstall] of that
    directory, and the filesystem is the one that call left. *)
Theorem Install_failure_after_materialization i templateLocator w dir fs1 err w' :
  manager_Install templateLocator (fs w) = (Ok dir, fs1) ->
  Ironman.Install i templateLocator w = (Some err, w') ->
  (exists t,
     reader_Read (manager_TemplateLocation dir) fs1 = Ok t
     /\ Ironman.runValidators i (Ironman.validators i) t = Some err
     /\ fs w' = fs1 /\ db w' = db w)
  \/ (fs w' = snd (manager_Uninstall dir fs1)
      /\ exists before : list Event,
           log w' = log w ++ before ++ [EManagerUninstall dir]).
Proof.
  intros Hinst. unfold Ironman.Install. run_calls. known Hinst.
  destruct (reader_Read (manager_TemplateLocation dir) fs1) as [t | e] eqn:Hread; go.
  - destruct (Ironman.runValidators i (Ironman.validators i) t) eqn:Hval; go.
    + intros Heq. injection Heq as <- <-. left. exists t.
      repeat split; first [reflexivity | assumption].
    + destruct (index_Index (set_SourceType t SourceTypeURL) (db w))
        as [[id' | e] db1] eqn:Hidx; go; [discriminate |].
      destruct (manager_Uninstall dir fs1) as [rb fs2]; go.
      intros Heq. injection Heq as <- <-. right. split; [reflexivity |].
      exists [EManagerInstall templateLocator;
              EReaderRead (manager_TemplateLocation dir);
              EIndexIndex (set_SourceType t SourceTypeURL)].
      go. flat_log. reflexivity.
  - destruct (manager_Uninstall dir fs1) as [rb fs2]; go.
    intros Heq. injection Heq as <- <-. right. split; [reflexivity |].
    exists [EManagerInstall templateLocator;
            EReaderRead (manager_TemplateLocation dir)].
    go. flat_log. reflexivity.
Qed.

(** X5.  When the Source Manager cannot materialize the template,
    [Install] and [Link] return its error as it is and call nothing
    else: no model is read, the Index is not asked and nothing is
    rolled back. *)
Theorem materialization_failure_returned i w :
  (forall templateLocator e fs',
     manager_Install templateLocator (fs w) = (Err e, fs') ->
     Ironman.Install i templateLocator w
     = (Some e, mkWorld fs' (db w) (log w ++ [EManagerInstall templateLocator])))
  /\ (forall templatePath templateID e fs',
       manager_Link templatePath templateID (fs w) = (Err e, fs') ->
       Ironman.Link i templatePath templateID w
       = (Some e, mkWorld fs' (db w) (log w ++ [EManagerLink templatePath templateID]))).
Proof.
  split.
  - intros loc e fs' Hfail. unfold Ironman.Install. run_calls. known Hfail. reflexivity.
  - intros p id e fs' Hfail. unfold Ironman.Link. run_calls. known Hfail. reflexivity.
Qed.

(** *** Unlink and Uninstall *)

(** X6.  [Unlink] does not ask the Index whether the ID is known: its
    first call is the Source Manager's [Unlink].  When that fails the
    error is returned and the Index is not touched; when it succeeds
    the Index's [Delete] follows and decides the result. *)
Theorem Unlink_contract i templateID w :
  (forall err fs',
     manager_Unlink templateID (fs w) = (Some err, fs') ->
     Ironman.Unlink i templateID w
     = (Some err, mkWorld fs' (db w) (log w ++ [EManagerUnlink templateID])))
  /\ (forall fs',
       manager_Unlink templateID (fs w) = (None, fs') ->
       Ironman.Unlink i templateID w
       = (match fst (index_Delete templateID (db w)) with
          | Err err => Some err
          | Ok _ => None
          end,
          mkWorld fs' (snd (index_Delete templateID (db w)))
            (log w ++ [EManagerUnlink templateID; EIndexDelete templateID]))).
Proof.
  split.
  - intros err fs' Hfail. unfold Ironman.Unlink. run_calls. known Hfail. reflexivity.
  - intros fs' Hok. unfold Ironman.Unlink. run_calls. known Hok.
    destruct (index_Delete templateID (db w)) as [[id' | err] db']; flat_log; reflexivity.
Qed.

(** X7.  With an Index that no longer has an ID once it has deleted
    it, a second [Uninstall] after a successful one returns the
    not-installed error and calls nothing but [Exists]. *)
Theorem Uninstall_twice i templateID w w' :
  (forall d d' x, index_Delete templateID d = (Ok x, d') ->
                  index_Exists templateID d' = Ok false) ->
  Ironman.Uninstall i templateID w = (None, w') ->
  Ironman.Uninstall i templateID w'
  = (Some (errors_Errorf ("template " +:+ templateID +:+ " is not installed")),
     mkWorld (fs w') (db w') (log w' ++ [EIndexExists templateID])).
Proof.
  intros Hlaw Hfirst.
  assert (Hgone : index_Exists templateID (db w') = Ok false).
  { revert Hfirst. unfold Ironman.Uninstall. run_calls.
    destruct (index_Exists templateID (db w)) as [[] | e]; go; try discriminate.
    destruct (index_FindTemplateByID templateID (db w)) as [model | e]; go;
      try discriminate.
    destruct (manager_Uninstall (DirectoryName model) (fs w)) as [[e |] fs1]; go;
      try discriminate.
    destruct (index_Delete templateID (db w)) as [[x | e] db1] eqn:Hdel; go;
      try discriminate.
    intros Heq. injection Heq as <-. go. exact (Hlaw _ _ _ Hdel). }
  unfold Ironman.Uninstall. run_calls. known Hgone. reflexivity.
Qed.

(** X8.  [Update] and [Generate] stop at the first call when the Index
    does not have the ID, or cannot tell: the error is the
    not-installed one, or the Index's under "failed to validate if
    template exists"; the filesystem and the Index are as before. *)
Theorem absent_template_guard i (context : Ctx) templateID generatorID generationPath
    (values : Values) force w :
  let stopped := mkWorld (fs w) (db w) (log w ++ [EIndexExists templateID]) in
  (index_Exists templateID (db w) = Ok false ->
   Ironman.Update i templateID w
   = (Some (errors_Errorf ("template '" +:+ templateID +:+ "' is not installed")), stopped)
   /\ Ironman.Generate i context templateID generatorID generationPath values force w
      = (Some (errors_Errorf ("template '" +:+ templateID +:+ "' is not installed")),
         stopped))
  /\ (forall e,
       index_Exists templateID (db w) = Err e ->
       Ironman.Update i templateID w
       = (Some (errors_Wrapf e ("failed to validate if template exists " +:+ templateID)),
          stopped)
       /\ Ironman.Generate i context templateID generatorID generationPath values force w
          = (Some (errors_Wrapf e
                     ("failed to validate if template exists " +:+ templateID)),
             stopped)).
Proof.
  intros stopped. split.
  - intros Habsent. split.
    + unfold Ironman.Update. run_calls. known Habsent. reflexivity.
    + unfold Ironman.Generate, Ironman.resolveGenerator. run_calls.
      known Habsent. reflexivity.
  - intros e Herr. split.
    + unfold Ironman.Update. run_calls. known Herr. reflexivity.
    + unfold Ironman.Generate, Ironman.resolveGenerator. run_calls.
      known Herr. reflexivity.
Qed.

(** *** Generate *)

(** X9.  [Generate] changes the Index only for a linked template: when
    the model the Index has is not link-sourced, the Index is left as
    it is, no Index write is made and the declaration is not read. *)
Theorem Generate_keeps_index_unless_linked i (context : Ctx) templateID generatorID
    generationPath (values : Values) force w :
  (forall model, index_FindTemplateByID templateID (db w) = Ok model ->
                 tSourceType model = SourceTypeURL) ->
  db (snd (Ironman.Generate i context templateID generatorID generationPath values force w))
  = db w
  /\ exists events : list Event,
       log (snd (Ironman.Generate i context templateID generatorID generationPath
                   values force w))
       = log w ++ events
       /\ forallb (fun e => negb (index_write e) && negb (is_reader_read e)) events = true.
Proof.
  intros Hurl.
  unfold Ironman.Generate, Ironman.resolveGenerator, Ironman.refreshLinked,
    Ironman.checkFileTarget, Ironman.checkDirectoryTarget, Ironman.render.
  run_calls.
  destruct (index_Exists templateID (db w)) as [[] | e]; go.
  2, 3: split; [reflexivity | eexists; split; reflexivity].
  destruct (index_FindTemplateByID templateID (db w)) as [model | e]; go.
  2: split; [reflexivity | eexists; split; [flat_log; reflexivity | reflexivity]].
  rewrite (Hurl model eq_refl).
  destruct (decide (SourceTypeURL = SourceTypeLink)) as [Hne | _]; [discriminate Hne |].
  go. repeat next_case;
    (split; [reflexivity | eexists; split; [flat_log; reflexivity | reflexivity]]).
Qed.

(** X10.  For a linked template the Index is updated with the model
    read again before the generator is looked up: when that model has
    no generator of the given ID, [Generate] fails with the
    does-not-exist error, nothing is written on the filesystem, and the
    Index keeps the update. *)
Theorem Generate_linked_unknown_generator i (context : Ctx) templateID generatorID
    generationPath (values : Values) force w model declared db1 :
  index_Exists templateID (db w) = Ok true ->
  index_FindTemplateByID templateID (db w) = Ok model ->
  tSourceType model = SourceTypeLink ->
  reader_Read (manager_TemplateLocation (DirectoryName model)) (fs w) = Ok declared ->
  let stored := set_SourceType (set_ID declared templateID) SourceTypeLink in
  index_Update stored (db w) = (None, db1) ->
  Template_Generator stored generatorID = None ->
  Ironman.Generate i context templateID generatorID generationPath values force w
  = (Some (errors_Errorf ("generator " +:+ generatorID +:+ " does not exists")),
     mkWorld (fs w) db1
       (log w ++ [EIndexExists templateID; EIndexFind templateID;
                  EReaderRead (manager_TemplateLocation (DirectoryName model));
                  EIndexUpdate stored])).
Proof.
  intros Hex Hfind Hlink Hread stored Hupd Hgen.
  unfold Ironman.Generate, Ironman.resolveGenerator, Ironman.refreshLinked.
  run_calls. known Hex. known Hfind. rewrite Hlink.
  destruct (decide (SourceTypeLink = SourceTypeLink)) as [_ | Hne]; [| contradiction].
  go. known Hread. fold stored. known Hupd. rewrite Hgen. go.
  flat_log. reflexivity.
Qed.

(** X11.  For a linked template, when the declaration cannot be read
    again, or the Index refuses the update, [Generate] fails with that
    error under an update-metadata message and goes no further: the
    filesystem is untouched and, on the read failure, so is the
    Index. *)
Theorem Generate_linked_refresh_failure i (context : Ctx) templateID generatorID
    generationPath (values : Values) force w model :
  index_Exists templateID (db w) = Ok true ->
  index_FindTemplateByID templateID (db w) = Ok model ->
  tSourceType model = SourceTypeLink ->
  let run := Ironman.Generate i context templateID generatorID generationPath values force in
  let location := manager_TemplateLocation (DirectoryName model) in
  (forall e,
     reader_Read location (fs w) = Err e ->
     run w
     = (Some (errors_Wrapf e ("failed to update metadata for template " +:+ templateID)),
        mkWorld (fs w) (db w)
          (log w ++ [EIndexExists templateID; EIndexFind templateID;
                     EReaderRead location])))
  /\ (forall declared e db1,
       reader_Read location (fs w) = Ok declared ->
       index_Update (set_SourceType (set_ID declared templateID) SourceTypeLink) (db w)
       = (Some e, db1) ->
       run w
       = (Some (errors_Wrapf e ("Failed to update metadata for template " +:+ templateID)),
          mkWorld (fs w) db1
            (log w ++ [EIndexExists templateID; EIndexFind templateID;
                       EReaderRead location;
                       EIndexUpdate
                         (set_SourceType (set_ID declared templateID) SourceTypeLink)]))).
Proof.
  intros Hex Hfind Hlink run location.
  assert (Hself : decide (SourceTypeLink = SourceTypeLink) = left eq_refl).
  { destruct (decide (SourceTypeLink = SourceTypeLink)) as [Heq | Hne];
      [| contradiction].
    f_equal. apply (proof_irrel Heq eq_refl). }
  split.
  - intros e Hread. unfold run, Ironman.Generate, Ironman.resolveGenerator,
      Ironman.refreshLinked.
    run_calls. known Hex. known Hfind. rewrite Hlink, Hself. go.
    unfold location in Hread. known Hread. flat_log. reflexivity.
  - intros declared e db1 Hread Hupd.
    unfold run, Ironman.Generate, Ironman.resolveGenerator, Ironman.refreshLinked.
    run_calls. known Hex. known Hfind. rewrite Hlink, Hself. go.
    unfold location in Hread. known Hread. known Hupd. flat_log. reflexivity.
Qed.

(** X12.  For a Directory generator, when [os.Mkdir] fails with a
    permission error [Generate] returns it under the create-path
    message, whatever [force] is; the engine is not called and the
    filesystem is untouched. *)
Theorem Mkdir_permission_denied i (context : Ctx) templateID generatorID generationPath
    (values : Values) force w tm g abs w1 err :
  Ironman.resolveGenerator i templateID generatorID generationPath w = (Ok (tm, g, abs), w1) ->
  TType g = GeneratorTypeDirectory ->
  os_Mkdir abs (fs w) = inl err ->
  os_IsPermission (Some err) = true ->
  Ironman.Generate i context templateID generatorID generationPath values force w
  = (Some (errors_Wrapf err ("failed to create generation path " +:+ abs)),
     mkWorld (fs w) (db w1) (log w1 ++ [EOsMkdir abs])).
Proof.
  intros Hres Hdir Hmk Hperm.
  destruct (Generate_directory i context _ _ _ values force _ _ _ _ _ Hres Hdir)
    as [Hfs Hrun].
  rewrite Hrun. unfold Ironman.checkDirectoryTarget. run_calls.
  rewrite Hfs, Hmk. go. rewrite Hperm. reflexivity.
Qed.

(** X13.  For a Directory generator whose target exists, without
    [force]: when the directory cannot be opened or listed, [Generate]
    returns that error, its text repeated in the message, whatever
    [isDirEmpty] says about emptiness; the engine is not called. *)
Theorem existing_target_not_listable i (context : Ctx) templateID generatorID
    generationPath (values : Values) w tm g abs w1 err empty e :
  Ironman.resolveGenerator i templateID generatorID generationPath w = (Ok (tm, g, abs), w1) ->
  TType g = GeneratorTypeDirectory ->
  os_Mkdir abs (fs w) = inl err ->
  os_IsExist (Some err) = true ->
  Ironman.isDirEmpty abs (fs w) = (empty, Some e) ->
  Ironman.Generate i context templateID generatorID generationPath values false w
  = (Some (errors_Wrapf e
             ("failed to validate if generation path is empty " +:+ error_Error e)),
     mkWorld (fs w) (db w1) (log w1 ++ [EOsMkdir abs; EIsDirEmpty abs])).
Proof.
  intros Hres Hdir Hmk Hex Hlist.
  destruct (Generate_directory i context _ _ _ values false _ _ _ _ _ Hres Hdir)
    as [Hfs Hrun].
  rewrite Hrun. unfold Ironman.checkDirectoryTarget. run_calls.
  rewrite Hfs, Hmk. go.
  rewrite (IsExist_not_IsPermission _ Hex), Hex. cbn [negb andb]. go.
  rewrite Hlist. destruct empty; flat_log; reflexivity.
Qed.

Lemma render_world i (context : Ctx) tm g abs (values : Values) w :
  let generatorPath :=
    filepath_Join [Ironman.home i; Ironman.templatesDirectory; DirectoryName tm;
                   Ironman.generatorsPath; gDirectoryName g] in
  let walk := Ironman.engine i context generatorPath abs
                (Ironman.mkGeneratorData tm g values) (fs w) in
  Ironman.render i context tm g abs values w
  = (fst walk, mkWorld (snd walk) (db w) (log w ++ [EGenerate generatorPath abs])).
Proof.
  cbv zeta. unfold Ironman.render. run_calls.
  destruct (Ironman.engine i context _ abs _ (fs w)) as [[err |] fs']; reflexivity.
Qed.

(** X14.  Once the generator is resolved, [Generate] calls the engine
    at most once, as its last call, on the generator's directory under
    the home and the absolute target path, for a File generator as for
    a Directory one; what [Generate] returns is then what the engine
    returns.  When the engine is not called [Generate] returns an
    error. *)
Theorem engine_called_last i (context : Ctx) templateID generatorID generationPath
    (values : Values) force w tm g abs w1 :
  Ironman.resolveGenerator i templateID generatorID generationPath w = (Ok (tm, g, abs), w1) ->
  let run := Ironman.Generate i context templateID generatorID generationPath values force w in
  let generatorPath :=
    filepath_Join [Ironman.home i; Ironman.templatesDirectory; DirectoryName tm;
                   Ironman.generatorsPath; gDirectoryName g] in
  exists events : list Event,
    log (snd run) = log w1 ++ events
    /\ ((forallb (fun e => negb (is_generate e)) events = true /\ fst run <> None)
        \/ (events = removelast events ++ [EGenerate generatorPath abs]
            /\ forallb (fun e => negb (is_generate e)) (removelast events) = true
            /\ exists fs' : FS,
                 fst run = fst (Ironman.engine i context generatorPath abs
                                  (Ironman.mkGeneratorData tm g values) fs'))).
Proof.
  intros Hres run generatorPath. unfold run.
  rewrite (Generate_resolved _ _ _ _ _ _ _ _ _ _ _ _ Hres).
  unfold Ironman.checkFileTarget, Ironman.checkDirectoryTarget. run_calls.
  repeat next_case; rewrite ?render_world; go; flat_log;
    (eexists; split; [reflexivity |]);
    first [ left; split; [reflexivity | discriminate]
          | right; split; [reflexivity | split; [reflexivity | eexists; reflexivity]] ].
Qed.

(** X15.  [isDirEmpty] answers empty only when the directory opens and
    the request for one name ends in [io.EOF], and then with no error;
    when the directory does not open the error is the one of
    [os.Open]. *)
Theorem isDirEmpty_true_iff (name : string) (s : FS) :
  (fst (Ironman.isDirEmpty name s) = true
   <-> os_Open name s = None /\ snd (file_Readdirnames name 1 s) = Some EOF)
  /\ (fst (Ironman.isDirEmpty name s) = true -> snd (Ironman.isDirEmpty name s) = None)
  /\ (forall err, os_Open name s = Some err ->
                  Ironman.isDirEmpty name s = (false, Some err)).
Proof.
  unfold Ironman.isDirEmpty.
  destruct (os_Open name s) as [oerr |].
  - repeat split; try discriminate.
    + intros [Hopen _]. discriminate Hopen.
    + intros err Heq. injection Heq as <-. reflexivity.
  - destruct (snd (file_Readdirnames name 1 s)) as [[] |]; cbn [fst snd];
      repeat split; try discriminate; try reflexivity.
    all: intros [_ Heof]; discriminate Heof.
Qed.

(** *** The home directory *)

(** X16.  When [os.Stat] of the home does not report it missing (the
    home is there, or the stat fails for another reason), the three
    functions that set the home up do nothing more and return [nil]:
    nothing is created, the templates directory under an existing home
    included. *)
Theorem home_not_missing_left_alone i w :
  os_IsNotExist (os_Stat (Ironman.home i) (fs w)) = false ->
  let checked := mkWorld (fs w) (db w) (log w ++ [EOsStat (Ironman.home i)]) in
  Ironman.EnsureIronmanHome i w = (None, checked)
  /\ Ironman.pkg_EnsureIronmanHome (Ironman.home i) w = (None, checked)
  /\ BaseManager.InitIronmanHome (Ironman.home i) w = (None, checked).
Proof.
  intros Hthere checked.
  unfold Ironman.EnsureIronmanHome, Ironman.pkg_EnsureIronmanHome,
    BaseManager.InitIronmanHome.
  run_calls. rewrite Hthere. repeat split.
Qed.

(** X17.  When the home is missing, [EnsureIronmanHome] creates the home
    and then the templates directory under it, in that order.  A
    failure to create the home is returned and the second creation is
    not attempted; a failure to create the templates directory is
    returned with the home left created; otherwise the result is
    [nil]. *)
Theorem EnsureIronmanHome_creates i w :
  os_IsNotExist (os_Stat (Ironman.home i) (fs w)) = true ->
  let home := Ironman.home i in
  let templates := filepath_Join [home; Ironman.templatesDirectory] in
  let message := "failed to initialize ironman home '" +:+ home +:+ "'" in
  (forall err,
     os_Mkdir home (fs w) = inl err ->
     Ironman.EnsureIronmanHome i w
     = (Some (errors_Wrapf err message),
        mkWorld (fs w) (db w) (log w ++ [EOsStat home; EOsMkdir home])))
  /\ (forall fs1 err,
       os_Mkdir home (fs w) = inr fs1 ->
       os_Mkdir templates fs1 = inl err ->
       Ironman.EnsureIronmanHome i w
       = (Some (errors_Wrapf err message),
          mkWorld fs1 (db w) (log w ++ [EOsStat home; EOsMkdir home; EOsMkdir templates])))
  /\ (forall fs1 fs2,
       os_Mkdir home (fs w) = inr fs1 ->
       os_Mkdir templates fs1 = inr fs2 ->
       Ironman.EnsureIronmanHome i w
       = (None,
          mkWorld fs2 (db w) (log w ++ [EOsStat home; EOsMkdir home; EOsMkdir templates]))).
Proof.
  intros Hmissing. cbv zeta.
  unfold Ironman.EnsureIronmanHome. run_calls.
  rewrite Hmissing. go. repeat split.
  - intros err Hmk. rewrite Hmk. go. flat_log. reflexivity.
  - intros fs1 err Hmk Hmk'. rewrite Hmk. go. rewrite Hmk'. go. flat_log. reflexivity.
  - intros fs1 fs2 Hmk Hmk'. rewrite Hmk. go. rewrite Hmk'. go. flat_log. reflexivity.
Qed.

(** X18.  The method [EnsureIronmanHome], the package function of the
    same name and [InitIronmanHome] of the manager package do the same
    thing on the same home: the same calls, the same filesystem after,
    and an error from the same failing call; only the message
    differs. *)
Theorem home_bootstraps_agree i w :
  let home := Ironman.home i in
  snd (Ironman.pkg_EnsureIronmanHome home w) = snd (Ironman.EnsureIronmanHome i w)
  /\ snd (BaseManager.InitIronmanHome home w) = snd (Ironman.EnsureIronmanHome i w)
  /\ (forall cause,
       (exists m, fst (Ironman.EnsureIronmanHome i w) = Some (Wrap cause m))
       <-> (exists m, fst (Ironman.pkg_EnsureIronmanHome home w) = Some (Wrap cause m)))
  /\ (forall cause,
       (exists m, fst (Ironman.EnsureIronmanHome i w) = Some (Wrap cause m))
       <-> (exists m, fst (BaseManager.InitIronmanHome home w) = Some (Wrap cause m)))
  /\ (fst (Ironman.EnsureIronmanHome i w) = None
      \/ exists cause m, fst (Ironman.EnsureIronmanHome i w) = Some (Wrap cause m)).
Proof.
  cbv zeta. set (home := Ironman.home i).
  unfold Ironman.EnsureIronmanHome, Ironman.pkg_EnsureIronmanHome,
    BaseManager.InitIronmanHome, BaseManager.managerTemplatesDirectory,
    Ironman.templatesDirectory, errors_Wrap, errors_Wrapf.
  run_calls. fold home.
  destruct (os_IsNotExist (os_Stat home (fs w))); go.
  2: { repeat split; try (intros [m Hm]; discriminate Hm). left. reflexivity. }
  destruct (os_Mkdir home (fs w)) as [err | fs1]; go.
  { repeat split; try (intros [m Hm]; injection Hm as <- _; eexists; reflexivity).
    right. eexists _, _. reflexivity. }
  destruct (os_Mkdir (filepath_Join [home; "templates"]) fs1) as [err | fs2]; go.
  { repeat split; try (intros [m Hm]; injection Hm as <- _; eexists; reflexivity).
    right. eexists _, _. reflexivity. }
  repeat split; try (intros [m Hm]; discriminate Hm). left. reflexivity.
Qed.

End FacadeProperties.

(** * Further properties of the base manager *)
Section BaseManagerMore.
Context {FS DB : Type}.
Context `{!OS FS, !FilePath}.

Implicit Types (b : BaseManager.BaseManager) (w : World FS DB).

Lemma validateTemplateID_pass (templateID : string) :
  templateID <> EmptyString -> BaseManager.validateTemplateID templateID = None.
Proof.
  intros Hne. unfold BaseManager.validateTemplateID.
  destruct (decide (templateID = EmptyString)); [contradiction | reflexivity].
Qed.

(** Closing step for the statements on the paths of the calls. *)
Ltac on_path :=
  eexists; split;
  [ first [flat_log; reflexivity | symmetry; apply app_nil_r]
  | cbn [forallb os_call_on andb]; rewrite ?bool_decide_eq_true_2 by reflexivity;
    reflexivity ].

(** X19.  [Uninstall], [IsInstalled] and [Unlink] call package [os] on
    the template's own path and on no other; [Link] stats the source
    path and makes a symbolic link at the template's own path, and
    nothing else. *)
Theorem base_manager_confined b templatePath templateID :
  emits (DB := DB) (os_call_on (BaseManager.TemplatePath b templateID))
        (BaseManager.Uninstall b templateID)
  /\ emits (DB := DB) (os_call_on (BaseManager.TemplatePath b templateID))
           (BaseManager.IsInstalled b templateID)
  /\ emits (DB := DB) (os_call_on (BaseManager.TemplatePath b templateID))
           (BaseManager.Unlink b templateID)
  /\ emits (DB := DB)
           (fun e => match e with
                     | EOsStat p => bool_decide (p = templatePath)
                     | EOsSymlink _ newname =>
                       bool_decide (newname = BaseManager.TemplatePath b templateID)
                     | _ => false
                     end)
           (BaseManager.Link b templatePath templateID).
Proof.
  repeat split; intros w.
  - unfold BaseManager.Uninstall. run_calls. repeat next_case; on_path.
  - unfold BaseManager.IsInstalled. run_calls. repeat next_case; on_path.
  - unfold BaseManager.Unlink. run_calls. repeat next_case; on_path.
  - unfold BaseManager.Link. run_calls. repeat next_case;
      (eexists; split;
       [ first [flat_log; reflexivity | symmetry; apply app_nil_r]
       | cbn [forallb andb]; rewrite ?bool_decide_eq_true_2 by reflexivity;
         reflexivity ]).
Qed.

(** X20.  [IsInstalled] never changes the filesystem.  It answers
    installed exactly when the ID is not empty and [os.Stat] of the
    template's path succeeds, and then with no error; a path reported
    missing gives not installed with no error. *)
Theorem IsInstalled_reports_stat b templateID w :
  let templatePath := BaseManager.TemplatePath b templateID in
  fs (snd (BaseManager.IsInstalled b templateID w)) = fs w
  /\ (fst (BaseManager.IsInstalled b templateID w) = (true, None)
      <-> templateID <> EmptyString /\ os_Stat templatePath (fs w) = None)
  /\ (fst (fst (BaseManager.IsInstalled b templateID w)) = true ->
      snd (fst (BaseManager.IsInstalled b templateID w)) = None)
  /\ (templateID <> EmptyString ->
      os_IsNotExist (os_Stat templatePath (fs w)) = true ->
      fst (BaseManager.IsInstalled b templateID w) = (false, None)).
Proof.
  cbv zeta. unfold BaseManager.IsInstalled, BaseManager.validateTemplateID.
  destruct (decide (templateID = EmptyString)) as [Hempty | Hne]; run_calls.
  - repeat split; try discriminate; try contradiction.
    intros [Hne _]. contradiction.
  - destruct (os_Stat (BaseManager.TemplatePath b templateID) (fs w)) as [e |] eqn:Hstat; go.
    + destruct (os_IsNotExist (Some e)); go;
        repeat split; try discriminate; try reflexivity.
      all: intros [_ Hnone]; discriminate Hnone.
    + repeat split; try reflexivity; try assumption. discriminate.
Qed.



(** X22.  [Installed] gives one entry per name [ioutil.ReadDir] finds
    under the templates path, in the same order, with the name as ID,
    whatever the name stands for; it does not change the filesystem,
    and a failing listing is returned under a message. *)
Theorem Installed_lists_entries b w :
  fs (snd (BaseManager.Installed b w)) = fs w
  /\ (forall files,
       ioutil_ReadDir (BaseManager.templatesPath b) (fs w) = Ok files ->
       exists templatesList,
         fst (BaseManager.Installed b w) = Ok templatesList
         /\ List.map BaseManager.mID templatesList = files)
  /\ (forall e,
       ioutil_ReadDir (BaseManager.templatesPath b) (fs w) = Err e ->
       fst (BaseManager.Installed b w)
       = Err (errors_Wrap e "Failed to list al the available templates")).
Proof.
  unfold BaseManager.Installed. run_calls.
  destruct (ioutil_ReadDir (BaseManager.templatesPath b) (fs w)) as [files | e]; go.
  - split; [reflexivity | split].
    + intros files' Heq. injection Heq as <-. eexists. split; [reflexivity |].
      rewrite List.map_map. cbn [BaseManager.mID]. apply List.map_id.
    + discriminate.
  - split; [reflexivity | split].
    + discriminate.
    + intros e' Heq. injection Heq as <-. reflexivity.
Qed.

(** X23.  [Uninstall] of a non-empty ID does not look whether the
    template is there: it makes the single call [os.RemoveAll] on the
    template's path and succeeds exactly when that call does. *)
Theorem base_Uninstall_is_RemoveAll b templateID w :
  templateID <> EmptyString ->
  let removal := os_RemoveAll (BaseManager.TemplatePath b templateID) (fs w) in
  snd (BaseManager.Uninstall b templateID w)
  = mkWorld (snd removal) (db w)
      (log w ++ [EOsRemoveAll (BaseManager.TemplatePath b templateID)])
  /\ (fst (BaseManager.Uninstall b templateID w) = None <-> fst removal = None)
  /\ (forall err,
       fst removal = Some err ->
       fst (BaseManager.Uninstall b templateID w)
       = Some (errors_Wrapf err ("Failed to remove template " +:+ templateID))).
Proof.
  intros Hne. cbv zeta. unfold BaseManager.Uninstall.
  rewrite (validateTemplateID_pass _ Hne). run_calls.
  destruct (os_RemoveAll (BaseManager.TemplatePath b templateID) (fs w)) as [[e |] fs1]; go.
  - split; [reflexivity | split; [split; discriminate |]].
    intros err Heq. injection Heq as <-. reflexivity.
  - split; [reflexivity | split; [split; reflexivity | discriminate]].
Qed.

(** X24.  [Unlink] of a non-empty ID whose path [os.Stat] reports
    missing fails without calling [os.Remove]; the message carries the
    text of the stat error where the ID was meant.  When the path is
    not reported missing, [os.Remove] is called on it and decides. *)
Theorem base_Unlink_contract b templateID w :
  templateID <> EmptyString ->
  let templatePath := BaseManager.TemplatePath b templateID in
  (forall err,
     os_Stat templatePath (fs w) = Some err ->
     os_IsNotExist (Some err) = true ->
     BaseManager.Unlink b templateID w
     = (Some (errors_Wrapf err
                ("Failed to remove symlink for template ID " +:+ error_Error err)),
        mkWorld (fs w) (db w) (log w ++ [EOsStat templatePath])))
  /\ (os_IsNotExist (os_Stat templatePath (fs w)) = false ->
      BaseManager.Unlink b templateID w
      = (match os_Remove templatePath (fs w) with
         | inl err =>
           Some (errors_Wrapf err ("Failed to remove symlink for template ID " +:+ templateID))
         | inr _ => None
         end,
         mkWorld (match os_Remove templatePath (fs w) with
                  | inl _ => fs w
                  | inr fs' => fs'
                  end)
                 (db w) (log w ++ [EOsStat templatePath; EOsRemove templatePath]))).
Proof.
  intros Hne. cbv zeta. unfold BaseManager.Unlink.
  rewrite (validateTemplateID_pass _ Hne). run_calls. split.
  - intros err Hstat Hmissing. rewrite Hstat, Hmissing. reflexivity.
  - intros Hthere. rewrite Hthere. go.
    destruct (os_Remove (BaseManager.TemplatePath b templateID) (fs w)); go;
      flat_log; reflexivity.
Qed.

End BaseManagerMore.

(** * Properties of the git-backed repository *)
Section GitProperties.
Context {FS : Type} `{!Git.GoGit FS}.

Implicit Types (r : Git.Repository) (s : FS).

Lemma append_nil (b : string) : EmptyString +:+ b = b.
Proof. reflexivity. Qed.

Lemma append_cons (x : ascii) (a b : string) : String x a +:+ b = String x (a +:+ b).
Proof. reflexivity. Qed.

Lemma string_length_append (a b : string) :
  String.length (a +:+ b) = String.length a + String.length b.
Proof.
  induction a as [| c a IH]; rewrite ?append_nil, ?append_cons; simpl;
    [reflexivity | congruence].
Qed.

Lemma string_append_assoc (a b c : string) : (a +:+ b) +:+ c = a +:+ (b +:+ c).
Proof.
  induction a as [| x a IH]; rewrite ?append_nil, ?append_cons;
    [reflexivity | congruence].
Qed.

Lemma substring_whole (a : string) : substring 0 (String.length a) a = a.
Proof. induction a as [| c a IH]; simpl; [reflexivity | congruence]. Qed.

Lemma substring_front (a b : string) : substring 0 (String.length a) (a +:+ b) = a.
Proof.
  induction a as [| c a IH]; rewrite ?append_nil, ?append_cons; simpl;
    [destruct b; reflexivity | congruence].
Qed.

Lemma substring_back (a b : string) :
  substring (String.length a) (String.length b) (a +:+ b) = b.
Proof.
  induction a as [| c a IH]; rewrite ?append_nil, ?append_cons; simpl;
    [apply substring_whole | exact IH].
Qed.

Lemma TrimSuffix_append (a suffix : string) :
  Git.strings_TrimSuffix (a +:+ suffix) suffix = a.
Proof.
  unfold Git.strings_TrimSuffix, Git.strings_HasSuffix.
  rewrite string_length_append.
  replace (String.length a + String.length suffix - String.length suffix)
    with (String.length a) by lia.
  rewrite substring_back, substring_front, String.eqb_refl.
  destruct (Nat.leb_spec (String.length suffix) (String.length a + String.length suffix));
    [reflexivity | lia].
Qed.

Lemma after_last_slash_None (a : string) :
  Git.after_last_slash a = None <-> Git.no_slash a = true.
Proof.
  induction a as [| c a IH]; cbn; [split; reflexivity |].
  destruct (Git.after_last_slash a) as [rest |].
  - split; [discriminate |]. intros Hno. apply andb_true_iff in Hno as [_ Hno].
    apply IH in Hno. discriminate Hno.
  - destruct (Ascii.eqb c "/"); cbn; [split; discriminate |].
    split; [intros _; apply IH; reflexivity | reflexivity].
Qed.

Lemma after_last_slash_Some (a rest : string) :
  Git.after_last_slash a = Some rest -> Git.no_slash rest = true.
Proof.
  induction a as [| c a IH]; cbn; [discriminate |].
  destruct (Git.after_last_slash a) as [rest' |] eqn:Hafter.
  - intros Heq. injection Heq as <-. apply IH. reflexivity.
  - destruct (Ascii.eqb c "/"); [| discriminate].
    intros Heq. injection Heq as <-. apply after_last_slash_None. exact Hafter.
Qed.

Lemma after_last_slash_join (prefix name : string) :
  Git.no_slash name = true ->
  Git.after_last_slash (prefix +:+ String "/" name) = Some name.
Proof.
  intros Hno. induction prefix as [| c prefix IH];
    rewrite ?append_nil, ?append_cons; cbn [Git.after_last_slash].
  - rewrite (proj2 (after_last_slash_None name) Hno). reflexivity.
  - rewrite IH. reflexivity.
Qed.

Lemma strip_no_slash (name : string) :
  Git.no_slash name = true -> name <> EmptyString ->
  Git.strip_trailing_slashes name = name.
Proof.
  induction name as [| c name IH]; [contradiction |].
  cbn. intros Hno _. apply andb_true_iff in Hno as [Hc Hno].
  destruct name as [| c' name'].
  - cbn. destruct (Ascii.eqb c "/"); [discriminate Hc | reflexivity].
  - rewrite (IH Hno) by discriminate. reflexivity.
Qed.

Lemma strip_append (prefix rest : string) :
  Git.strip_trailing_slashes rest = rest -> rest <> EmptyString ->
  Git.strip_trailing_slashes (prefix +:+ rest) = prefix +:+ rest.
Proof.
  intros Hrest Hne. induction prefix as [| c prefix IH];
    rewrite ?append_nil, ?append_cons; [exact Hrest |].
  cbn [Git.strip_trailing_slashes]. rewrite IH.
  destruct (prefix +:+ rest) eqn:Happ; [| reflexivity].
  destruct prefix; rewrite ?append_nil, ?append_cons in Happ;
    [contradiction | discriminate Happ].
Qed.

Lemma path_Base_join (prefix name : string) :
  Git.no_slash name = true -> name <> EmptyString ->
  Git.path_Base (prefix +:+ "/" +:+ name) = name.
Proof.
  intros Hno Hne.
  change (prefix +:+ "/" +:+ name) with (prefix +:+ String "/" name).
  unfold Git.path_Base.
  destruct (decide (prefix +:+ String "/" name = EmptyString)) as [Hempty | _].
  { destruct prefix; rewrite ?append_nil, ?append_cons in Hempty; discriminate Hempty. }
  cbv zeta.
  assert (Hkeep : Git.strip_trailing_slashes (String "/" name) = String "/" name).
  { cbn [Git.strip_trailing_slashes]. rewrite (strip_no_slash name Hno Hne).
    destruct name; [contradiction | reflexivity]. }
  rewrite (strip_append prefix (String "/" name) Hkeep) by discriminate.
  rewrite (after_last_slash_join prefix name Hno).
  destruct (decide (name = EmptyString)); [contradiction | reflexivity].
Qed.

Lemma path_Base_plain (name : string) :
  Git.no_slash name = true -> name <> EmptyString -> Git.path_Base name = name.
Proof.
  intros Hno Hne. unfold Git.path_Base.
  destruct (decide (name = EmptyString)); [contradiction |]. cbv zeta.
  rewrite (strip_no_slash name Hno Hne), (proj2 (after_last_slash_None name) Hno).
  destruct (decide (name = EmptyString)); [contradiction | reflexivity].
Qed.

(** X25.  A template installed from a locator [prefix/name.git] and
    updated under the ID [name] is looked for at the same path, the
    base's path of [name]: the suffix [.git] and everything up to the
    last slash are dropped.  This needs [name] not to be empty, to hold
    no slash and, for the ID, not to end in [.git] itself. *)
Theorem location_and_id_same_path r prefix name :
  Git.no_slash name = true ->
  name <> EmptyString ->
  Git.strings_HasSuffix name ".git" = false ->
  Git.templatePathFromLocation r (prefix +:+ "/" +:+ name +:+ ".git")
  = Git.TemplatePath r name
  /\ Git.templatePathFromLocation r name = Git.TemplatePath r name.
Proof.
  intros Hno Hne Hplain. unfold Git.templatePathFromLocation. cbv zeta. split.
  - replace (prefix +:+ "/" +:+ name +:+ ".git")
      with ((prefix +:+ "/" +:+ name) +:+ ".git")
      by (rewrite !string_append_assoc; reflexivity).
    rewrite TrimSuffix_append, (path_Base_join prefix name Hno Hne). reflexivity.
  - unfold Git.strings_TrimSuffix. rewrite Hplain.
    rewrite (path_Base_plain name Hno Hne). reflexivity.
Qed.

Lemma path_Base_element (path : string) :
  Git.path_Base path <> EmptyString
  /\ (Git.no_slash (Git.path_Base path) = true \/ Git.path_Base path = "/").
Proof.
  unfold Git.path_Base.
  destruct (decide (path = EmptyString)) as [_ | _].
  { split; [discriminate | left; reflexivity]. }
  cbv zeta.
  destruct (Git.after_last_slash (Git.strip_trailing_slashes path)) as [rest |] eqn:Hafter.
  - destruct (decide (rest = EmptyString)) as [_ | Hne].
    + split; [discriminate | right; reflexivity].
    + split; [exact Hne | left; exact (after_last_slash_Some _ _ Hafter)].
  - destruct (decide (Git.strip_trailing_slashes path = EmptyString)) as [_ | Hne].
    + split; [discriminate | right; reflexivity].
    + split; [exact Hne | left; apply after_last_slash_None; exact Hafter].
Qed.

(** X26.  Whatever the locator or ID, the repository works on the
    base's path of a template ID that is never empty and is a single
    path element: it holds no slash, unless it is the lone slash that a
    location made of slashes only gives. *)
Theorem template_directory_single_element r (location : string) :
  exists templateID : string,
    Git.templatePathFromLocation r location = Git.TemplatePath r templateID
    /\ templateID <> EmptyString
    /\ (Git.no_slash templateID = true \/ templateID = "/").
Proof.
  exists (Git.path_Base (Git.strings_TrimSuffix location ".git")).
  split; [reflexivity | apply path_Base_element].
Qed.

(** X27.  [Update] of the git repository succeeds exactly when the
    repository opens and the pull returns [nil] or reports that
    everything is already up to date; [Install] succeeds exactly when
    the repository opens and the clone returns [nil], and does not
    clone when the repository does not open. *)
Theorem git_success_iff r (location : string) s :
  let templatePath := Git.templatePathFromLocation r location in
  (fst (Git.Update r location s) = None
   <-> exists s1,
         Git.gogit_NewFilesystemRepository templatePath s = (None, s1)
         /\ (fst (Git.gogit_Pull templatePath s1) = None
             \/ fst (Git.gogit_Pull templatePath s1) = Some Git.NoErrAlreadyUpToDate))
  /\ (fst (Git.Install r location s) = None
      <-> exists s1,
            Git.gogit_NewFilesystemRepository templatePath s = (None, s1)
            /\ fst (Git.gogit_Clone templatePath location s1) = None)
  /\ (forall err s1,
        Git.gogit_NewFilesystemRepository templatePath s = (Some err, s1) ->
        Git.Install r location s
        = (Some (errors_Wrapf err ("Failed to get template repository " +:+ location)), s1)).
Proof.
  cbv zeta. unfold Git.Update, Git.Install, bind, ret.
  destruct (Git.gogit_NewFilesystemRepository (Git.templatePathFromLocation r location) s)
    as [[err |] s1].
  - repeat split; try discriminate.
    + intros (s1' & Hopen & _). discriminate Hopen.
    + intros (s1' & Hopen & _). discriminate Hopen.
    + intros err' s1' Heq. injection Heq as <- <-. reflexivity.
  - split; [| split].
    + destruct (Git.gogit_Pull (Git.templatePathFromLocation r location) s1)
        as [[[| perr] |] s2] eqn:Hpull; cbn [fst]; split.
      * intros _. exists s1. rewrite Hpull. split; [reflexivity | right; reflexivity].
      * reflexivity.
      * discriminate.
      * intros (s1' & Hopen & Hp). injection Hopen as <-. rewrite Hpull in Hp.
        destruct Hp as [Hp | Hp]; discriminate Hp.
      * intros _. exists s1. rewrite Hpull. split; [reflexivity | left; reflexivity].
      * reflexivity.
    + destruct (Git.gogit_Clone (Git.templatePathFromLocation r location) location s1)
        as [[cerr |] s2] eqn:Hclone; cbn [fst]; split.
      * discriminate.
      * intros (s1' & Hopen & Hc). injection Hopen as <-.
        rewrite Hclone in Hc. discriminate Hc.
      * intros _. exists s1. rewrite Hclone. split; reflexivity.
      * reflexivity.
    + discriminate.
Qed.

End GitProperties.

(** * The further properties on the executable environment *)


(** A plain installation. *)
Lemma Install_success_stores_URL_witness :
  let i := Sim.ironman [Sim.accept] in
  Ironman.Install i Sim.locator Sim.world0 = (None, Sim.world1)
  /\ exists dir t id',
       reader_Read (manager_TemplateLocation dir) (fs Sim.world1) = Ok t
       /\ index_Index (set_SourceType t SourceTypeURL) (db Sim.world0)
          = (Ok id', db Sim.world1).
Proof.
  intros i.
  assert (Hrun : Ironman.Install i Sim.locator Sim.world0 = (None, Sim.world1))
    by by_running.
  split; [exact Hrun |].
  destruct (Install_success_stores_URL i Sim.locator Sim.world0 Sim.world1 Hrun)
    as (dir & t & id' & _ & Hread & _ & Hidx & _).
  exists dir, t, id'. split; assumption.
Defined.

(** The locator whose declaration cannot be read: the rollback is the
    last call. *)
Lemma Install_failure_after_materialization_witness :
  let i := Sim.ironman [] in
  let run := Ironman.Install i Sim.broken_locator Sim.world0 in
  manager_Install Sim.broken_locator (fs Sim.world0)
  = (Ok "broken", snd (manager_Install Sim.broken_locator (fs Sim.world0)))
  /\ fst run <> None
  /\ Sim.exists_ (Sim.TemplateLocation "broken") (fs (snd run)) = false.
Proof.
  intros i run.
  assert (H1 : manager_Install Sim.broken_locator (fs Sim.world0)
               = (Ok "broken", snd (manager_Install Sim.broken_locator (fs Sim.world0))))
    by by_running.
  assert (H2 : run
               = (Some (Wrap (New "failed to decode the template declaration under /home/tony/.ironman/templates/broken")
                          "failed to read template model"), snd run)) by by_running.
  split; [exact H1 | split; [rewrite H2; discriminate |]].
  destruct (Install_failure_after_materialization i Sim.broken_locator Sim.world0
              "broken" _ _ _ H1 H2) as [(t & Hread & _) | [Hfs _]].
  - vm_compute in Hread. discriminate Hread.
  - rewrite Hfs. by_running.
Defined.

(** A locator nothing is served under. *)
Lemma materialization_failure_returned_witness :
  manager_Install "nowhere" (fs Sim.world0)
  = (Err (New "repository not found nowhere"), fs Sim.world0)
  /\ Ironman.Install (Sim.ironman []) "nowhere" Sim.world0
     = (Some (New "repository not found nowhere"),
        mkWorld (fs Sim.world0) (db Sim.world0) [EManagerInstall "nowhere"]).
Proof.
  assert (H1 : manager_Install "nowhere" (fs Sim.world0)
               = (Err (New "repository not found nowhere"), fs Sim.world0))
    by by_running.
  split; [exact H1 |].
  exact (proj1 (materialization_failure_returned (Sim.ironman []) Sim.world0) _ _ _ H1).
Defined.

(** Unlinking the linked template. *)
Lemma Unlink_contract_witness :
  let fs' := snd (manager_Unlink "base" (fs Sim.world_linked)) in
  manager_Unlink "base" (fs Sim.world_linked) = (None, fs')
  /\ fst (Ironman.Unlink (Sim.ironman []) "base" Sim.world_linked) = None
  /\ index_Exists "base" (db (snd (Ironman.Unlink (Sim.ironman []) "base"
                                       Sim.world_linked))) = Ok false.
Proof.
  intros fs'.
  assert (H1 : manager_Unlink "base" (fs Sim.world_linked) = (None, fs'))
    by by_running.
  split; [exact H1 |].
  rewrite (proj2 (Unlink_contract (Sim.ironman []) "base" Sim.world_linked) _ H1).
  split; by_running.
Defined.

Lemma sim_index_delete_gone (templateID : string) (d d' : Sim.SimDB) (x : string) :
  index_Delete templateID d = (Ok x, d') -> index_Exists templateID d' = Ok false.
Proof.
  cbn. unfold Sim.SimDB in *. intros Heq. injection Heq as _ <-.
  rewrite lookup_delete_eq. reflexivity.
Qed.

(** Uninstalling the installed template twice. *)
Lemma Uninstall_twice_witness :
  let i := Sim.ironman [] in
  let w' := snd (Ironman.Uninstall i "base" Sim.world1) in
  Ironman.Uninstall i "base" Sim.world1 = (None, w')
  /\ fst (Ironman.Uninstall i "base" w') = Some (New "template base is not installed").
Proof.
  intros i w'.
  assert (H1 : Ironman.Uninstall i "base" Sim.world1 = (None, w')) by by_running.
  split; [exact H1 |].
  rewrite (Uninstall_twice i "base" Sim.world1 w' (sim_index_delete_gone "base") H1).
  reflexivity.
Defined.

(** An ID the Index does not have. *)
Lemma absent_template_guard_witness :
  let i := Sim.ironman [] in
  index_Exists "ghost" (db Sim.world0) = Ok false
  /\ fst (Ironman.Update i "ghost" Sim.world0)
     = Some (New "template 'ghost' is not installed")
  /\ fst (Ironman.Generate i tt "ghost" "app" "/work/empty" [] false Sim.world0)
     = Some (New "template 'ghost' is not installed").
Proof.
  intros i.
  assert (H1 : index_Exists "ghost" (db Sim.world0) = Ok false) by by_running.
  split; [exact H1 |].
  destruct (absent_template_guard i tt "ghost" "app" "/work/empty" [] false Sim.world0)
    as [Habsent _].
  destruct (Habsent H1) as [Hupdate Hgenerate].
  rewrite Hupdate, Hgenerate. split; reflexivity.
Defined.

(** Generating from the installed, URL-sourced template. *)
Lemma Generate_keeps_index_unless_linked_witness :
  let i := Sim.ironman [] in
  index_FindTemplateByID "base" (db Sim.world1)
  = Ok (set_SourceType Sim.declared SourceTypeURL)
  /\ db (snd (Ironman.Generate i tt "base" "app" "/work/empty" [] false Sim.world1))
     = db Sim.world1.
Proof.
  intros i.
  assert (H1 : index_FindTemplateByID "base" (db Sim.world1)
               = Ok (set_SourceType Sim.declared SourceTypeURL)) by by_running.
  split; [exact H1 |].
  apply (Generate_keeps_index_unless_linked i tt "base" "app" "/work/empty" [] false
           Sim.world1).
  intros model Hmodel. rewrite H1 in Hmodel. injection Hmodel as <-. reflexivity.
Defined.

(** The linked template asked for a generator it does not have. *)
Lemma Generate_linked_unknown_generator_witness :
  let i := Sim.ironman [] in
  let stored := set_SourceType (set_ID Sim.declared "base") SourceTypeLink in
  index_FindTemplateByID "base" (db Sim.world_linked) = Ok stored
  /\ Template_Generator stored "nope" = None
  /\ fst (Ironman.Generate i tt "base" "nope" "/work/empty" [] false Sim.world_linked)
     = Some (New "generator nope does not exists")
  /\ fs (snd (Ironman.Generate i tt "base" "nope" "/work/empty" [] false
                Sim.world_linked))
     = fs Sim.world_linked.
Proof.
  intros i stored.
  assert (H1 : index_Exists "base" (db Sim.world_linked) = Ok true) by by_running.
  assert (H2 : index_FindTemplateByID "base" (db Sim.world_linked) = Ok stored)
    by by_running.
  assert (H3 : reader_Read (manager_TemplateLocation (DirectoryName stored))
                 (fs Sim.world_linked) = Ok Sim.declared) by by_running.
  assert (H4 : index_Update stored (db Sim.world_linked)
               = (None, snd (index_Update stored (db Sim.world_linked)))) by by_running.
  assert (H5 : Template_Generator stored "nope" = None) by by_running.
  split; [exact H2 | split; [exact H5 |]].
  rewrite (Generate_linked_unknown_generator i tt "base" "nope" "/work/empty" [] false
             Sim.world_linked stored Sim.declared _ H1 H2 eq_refl H3 H4 H5).
  split; reflexivity.
Defined.

(** The linked template once its declaration is gone. *)
Lemma Generate_linked_refresh_failure_witness :
  let i := Sim.ironman [] in
  let w := Sim.forget_meta Sim.world_linked in
  let stored := set_SourceType (set_ID Sim.declared "base") SourceTypeLink in
  index_FindTemplateByID "base" (db w) = Ok stored
  /\ fst (Ironman.Generate i tt "base" "app" "/work/empty" [] false w)
     = Some (Wrap (New "failed to decode the template declaration under /src/mine")
                  "failed to update metadata for template base")
  /\ db (snd (Ironman.Generate i tt "base" "app" "/work/empty" [] false w)) = db w.
Proof.
  intros i w stored.
  assert (H1 : index_Exists "base" (db w) = Ok true) by by_running.
  assert (H2 : index_FindTemplateByID "base" (db w) = Ok stored) by by_running.
  split; [exact H2 |].
  pose proof (Generate_linked_refresh_failure i tt "base" "app" "/work/empty" [] false
                w stored H1 H2 eq_refl) as H.
  cbv zeta in H. destruct H as [Hread _].
  rewrite (Hread (New "failed to decode the template declaration under /src/mine"));
    [split; reflexivity | by_running].
Defined.

(** A Directory generator aimed into a directory that cannot be
    written. *)
Lemma Mkdir_permission_denied_witness :
  let i := Sim.ironman [] in
  let w := Sim.lock_world "/work" Sim.world1 in
  os_Mkdir "/work/new" (fs w) = inl (PathError "mkdir" "/work/new" EACCES)
  /\ fst (Ironman.Generate i tt "base" "app" "/work/new" [] true w)
     = Some (Wrap (PathError "mkdir" "/work/new" EACCES)
                  "failed to create generation path /work/new")
  /\ fs (snd (Ironman.Generate i tt "base" "app" "/work/new" [] true w)) = fs w.
Proof.
  intros i w.
  assert (Hres : Ironman.resolveGenerator i "base" "app" "/work/new" w
                 = (Ok (set_SourceType Sim.declared SourceTypeURL, Sim.gen_app, "/work/new"),
                    snd (Ironman.resolveGenerator i "base" "app" "/work/new" w)))
    by by_running.
  assert (Hmk : os_Mkdir "/work/new" (fs w) = inl (PathError "mkdir" "/work/new" EACCES))
    by by_running.
  split; [exact Hmk |].
  rewrite (Mkdir_permission_denied i tt "base" "app" "/work/new" [] true w _ _ _ _ _
             Hres eq_refl Hmk eq_refl).
  split; reflexivity.
Defined.

(** A Directory generator aimed at a directory that is there and cannot
    be opened. *)
Lemma existing_target_not_listable_witness :
  let i := Sim.ironman [] in
  let w := Sim.lock_world "/work/full" Sim.world1 in
  os_Mkdir "/work/full" (fs w) = inl (PathError "mkdir" "/work/full" EEXIST)
  /\ Ironman.isDirEmpty "/work/full" (fs w)
     = (false, Some (PathError "open" "/work/full" EACCES))
  /\ fst (Ironman.Generate i tt "base" "app" "/work/full" [] false w)
     = Some (Wrap (PathError "open" "/work/full" EACCES)
                  "failed to validate if generation path is empty open /work/full: permission denied").
Proof.
  intros i w.
  assert (Hres : Ironman.resolveGenerator i "base" "app" "/work/full" w
                 = (Ok (set_SourceType Sim.declared SourceTypeURL, Sim.gen_app, "/work/full"),
                    snd (Ironman.resolveGenerator i "base" "app" "/work/full" w)))
    by by_running.
  assert (Hmk : os_Mkdir "/work/full" (fs w) = inl (PathError "mkdir" "/work/full" EEXIST))
    by by_running.
  assert (Hlist : Ironman.isDirEmpty "/work/full" (fs w)
                  = (false, Some (PathError "open" "/work/full" EACCES))) by by_running.
  split; [exact Hmk | split; [exact Hlist |]].
  rewrite (existing_target_not_listable i tt "base" "app" "/work/full" [] w _ _ _ _ _ _ _
             Hres eq_refl Hmk eq_refl Hlist).
  reflexivity.
Defined.

(** A Directory generator aimed at an empty directory: the engine is
    the last call. *)
Lemma engine_called_last_witness :
  let i := Sim.ironman [Sim.accept] in
  exists events,
    log (snd (Ironman.Generate i tt "base" "app" "/work/empty" [] false Sim.world1))
    = log Sim.world1 ++ events
    /\ List.last events EIndexList
       = EGenerate "/home/tony/.ironman/templates/base/generators/app" "/work/empty".
Proof.
  intros i.
  destruct (engine_called_last i tt "base" "app" "/work/empty" [] false Sim.world1 _ _ _ _
              (resolve_app "/work/empty" "/work/empty" eq_refl))
    as (events & Hlog & Hcases).
  exists ([EIndexExists "base"; EIndexFind "base"] ++ events). split.
  - rewrite Hlog. by_running.
  - destruct Hcases as [[_ Hfailed] | (Hlast & _ & _)].
    + contradiction Hfailed. by_running.
    + rewrite Hlast. rewrite app_assoc, last_last. by_running.
Defined.

(** A home that is there, and a home that is not. *)
Lemma home_not_missing_left_alone_witness :
  os_IsNotExist (os_Stat Sim.sim_home (fs Sim.world1)) = false
  /\ Ironman.EnsureIronmanHome (Sim.ironman []) Sim.world1
     = (None, mkWorld (fs Sim.world1) (db Sim.world1)
                (log Sim.world1 ++ [EOsStat Sim.sim_home])).
Proof.
  assert (H1 : os_IsNotExist (os_Stat Sim.sim_home (fs Sim.world1)) = false)
    by by_running.
  split; [exact H1 |].
  exact (proj1 (home_not_missing_left_alone (Sim.ironman []) Sim.world1 H1)).
Defined.

Lemma EnsureIronmanHome_creates_witness :
  let run := Ironman.EnsureIronmanHome (Sim.ironman []) Sim.world_bare in
  os_IsNotExist (os_Stat Sim.sim_home (fs Sim.world_bare)) = true
  /\ fst run = None
  /\ log (snd run)
     = [EOsStat Sim.sim_home; EOsMkdir Sim.sim_home;
        EOsMkdir "/home/tony/.ironman/templates"]
  /\ Sim.exists_ "/home/tony/.ironman/templates" (fs (snd run)) = true.
Proof.
  intros run.
  assert (H1 : os_IsNotExist (os_Stat Sim.sim_home (fs Sim.world_bare)) = true)
    by by_running.
  split; [exact H1 |].
  pose proof (EnsureIronmanHome_creates (Sim.ironman []) Sim.world_bare H1) as H.
  cbv zeta in H. destruct H as (_ & _ & Hboth).
  unfold run.
  rewrite (Hboth (Sim.put Sim.sim_home Sim.NDir (fs Sim.world_bare))
                 (Sim.put "/home/tony/.ironman/templates" Sim.NDir
                    (Sim.put Sim.sim_home Sim.NDir (fs Sim.world_bare))));
    [repeat split; by_running | by_running ..].
Defined.



(** Uninstalling, with the base manager, a template that was never
    installed. *)
Lemma base_Uninstall_is_RemoveAll_witness :
  "ghost" <> EmptyString
  /\ fst (BaseManager.IsInstalled Sim.base "ghost" Sim.world1) = (false, None)
  /\ fst (BaseManager.Uninstall Sim.base "ghost" Sim.world1) = None.
Proof.
  assert (H1 : "ghost" <> EmptyString) by discriminate.
  split; [exact H1 | split; [by_running |]].
  pose proof (base_Uninstall_is_RemoveAll Sim.base "ghost" Sim.world1 H1) as H.
  cbv zeta in H. destruct H as (_ & Hiff & _). apply Hiff. by_running.
Defined.

(** Unlinking, with the base manager, a link that is not there. *)
Lemma base_Unlink_contract_witness :
  let p := "/home/tony/.ironman/templates/custom" in
  "custom" <> EmptyString
  /\ os_Stat p (fs Sim.world0) = Some (PathError "stat" p ENOENT)
  /\ BaseManager.Unlink Sim.base "custom" Sim.world0
     = (Some (Wrap (PathError "stat" p ENOENT)
                ("Failed to remove symlink for template ID stat " +:+ p
                 +:+ ": no such file or directory")),
        mkWorld (fs Sim.world0) (db Sim.world0) [EOsStat p]).
Proof.
  intros p.
  assert (H1 : "custom" <> EmptyString) by discriminate.
  assert (H2 : os_Stat p (fs Sim.world0) = Some (PathError "stat" p ENOENT))
    by by_running.
  split; [exact H1 | split; [exact H2 |]].
  pose proof (base_Unlink_contract Sim.base "custom" Sim.world0 H1) as H.
  cbv zeta in H. destruct H as [Hmissing _].
  exact (Hmissing (PathError "stat" p ENOENT) H2 eq_refl).
Defined.

(** The locator of the examples and the ID it is installed under. *)
Lemma location_and_id_same_path_witness :
  Git.no_slash "base" = true
  /\ "base" <> EmptyString
  /\ Git.strings_HasSuffix "base" ".git" = false
  /\ Git.templatePathFromLocation Sim.repository
       "https://github.com/ironman-project/base.git"
     = "/home/tony/.ironman/templates/base"
  /\ Git.templatePathFromLocation Sim.repository "base"
     = "/home/tony/.ironman/templates/base".
Proof.
  assert (H1 : Git.no_slash "base" = true) by reflexivity.
  assert (H2 : "base" <> EmptyString) by discriminate.
  assert (H3 : Git.strings_HasSuffix "base" ".git" = false) by reflexivity.
  split; [exact H1 | split; [exact H2 | split; [exact H3 |]]].
  exact (location_and_id_same_path Sim.repository "https://github.com/ironman-project"
           "base" H1 H2 H3).
Defined.
